(** * deep_research.py: the research pipeline, embedded in Rocq

    Python values are modelled as the code uses them:
    - [str] is a list of characters.  Characters are the code points
      0..255 ([ascii], read as Latin-1); the literals of the program are
      all in that range.
    - [int] is [Z]; [len] returns a [Z]; a slice [s[:k]] follows Python,
      a negative [k] counting from the end.
    - a call that may raise returns an [outcome]; the exceptions are those
      [except Exception] catches.  Calls that reach the network thread a
      world state, so a backend may answer the same request differently
      each time.
    - the libraries the program calls (the HTTP client, the HTML parser,
      the JSON decoder, URL quoting) are parameters of the adapters. *)

From Stdlib Require Import List ZArith Lia Bool Ascii String DecimalString.
Import ListNotations.

Local Open Scope Z_scope.

(** ** Python strings *)

Module Py.

Definition str := list ascii.

(** A string literal of the source. *)
Definition lit (s : string) : str := list_ascii_of_string s.

Definition len {A} (s : list A) : Z := Z.of_nat (List.length s).

(** [s[:k]] *)
Definition slice_to {A} (s : list A) (k : Z) : list A :=
  firstn (Z.to_nat (if k <? 0 then len s + k else k)) s.

(** [str(n)] and [f"{n}"] for an int. *)
Definition str_of_Z (n : Z) : str := lit (NilZero.string_of_int (Z.to_int n)).

Definition ascii_eqb (a b : ascii) : bool := Ascii.eqb a b.

Fixpoint str_eqb (a b : str) : bool :=
  match a, b with
  | [], [] => true
  | x :: a', y :: b' => ascii_eqb x y && str_eqb a' b'
  | _, _ => false
  end.

(** [s.startswith(sub)] *)
Fixpoint starts_with (sub s : str) : bool :=
  match sub, s with
  | [], _ => true
  | a :: sub', b :: s' => ascii_eqb a b && starts_with sub' s'
  | _ :: _, [] => false
  end.

(** [sub in s] *)
Fixpoint contains (sub s : str) : bool :=
  starts_with sub s ||
  match s with
  | [] => false
  | _ :: s' => contains sub s'
  end.

(** The highest index [j >= i] at which [sub] occurs in the text whose
    tail from index [i] is [s], or [-1]. *)
Fixpoint rfind_from (sub s : str) (i : Z) : Z :=
  match s with
  | [] => if starts_with sub [] then i else -1
  | _ :: s' =>
      let r := rfind_from sub s' (i + 1) in
      if 0 <=? r then r
      else if starts_with sub s then i else -1
  end.

(** [s.rfind(sub)] *)
Definition rfind (s sub : str) : Z := rfind_from sub s 0.

(** [sep.join(parts)] *)
Fixpoint join (sep : str) (parts : list str) : str :=
  match parts with
  | [] => []
  | [p] => p
  | p :: rest => p ++ sep ++ join sep rest
  end.

(** Python's white space ([str.isspace], [\s] of [re], [str.strip]) on the
    code points below 256. *)
Definition is_space (c : ascii) : bool :=
  let n := nat_of_ascii c in
  ((9 <=? n) && (n <=? 13) || (28 <=? n) && (n <=? 32)
   || (n =? 133) || (n =? 160))%nat.

Fixpoint lstrip (s : str) : str :=
  match s with
  | c :: s' => if is_space c then lstrip s' else s
  | [] => []
  end.

(** [s.strip()] *)
Definition strip (s : str) : str := rev (lstrip (rev (lstrip s))).

(** [c.lower()] on the code points below 256. *)
Definition lower_char (c : ascii) : ascii :=
  let n := nat_of_ascii c in
  if ((65 <=? n) && (n <=? 90)
      || (192 <=? n) && (n <=? 222) && negb (n =? 215))%nat
  then ascii_of_nat (n + 32) else c.

(** [s.lower()] *)
Definition lower (s : str) : str := map lower_char s.

(** The longest prefix of characters satisfying [p], and what follows. *)
Fixpoint span (p : ascii -> bool) (s : str) : str * str :=
  match s with
  | c :: s' => if p c then let (a, b) := span p s' in (c :: a, b) else ([], s)
  | [] => ([], [])
  end.

(** [x in xs] for a list of strings. *)
Definition in_list (x : str) (xs : list str) : bool := existsb (str_eqb x) xs.

End Py.

Import Py.

(** ** Configuration (lines 51-54) *)

Definition MAX_CONTENT_SIZE : Z := 8000.
Definition MAX_RESULTS : Z := 3.

Definition nl : str := ["010"%char].
Definition para_break : str := nl ++ nl.

(** The default value of [safe_truncate]'s [suffix]. *)
Definition TRUNCATION_SUFFIX : str :=
  lit "..." ++ nl ++ lit "[Content truncated due to size limits]".

(** ** Text budgeter (lines 56-66) *)

Definition safe_truncate_with (text : str) (max_length : Z) (suffix : str) : str :=
  if (match text with [] => true | _ => false end) || (len text <=? max_length)
  then text
  else
    let last_para_break := rfind (slice_to text (max_length - 50)) para_break in
    if last_para_break >? max_length / 2
    then slice_to text last_para_break ++ para_break ++ suffix
    else slice_to text max_length ++ suffix.

Definition safe_truncate (text : str) (max_length : Z) : str :=
  safe_truncate_with text max_length TRUNCATION_SUFFIX.

(** ** Calls that may raise and that reach the network

    An exception is modelled by its message, [str(e)]: the only thing the
    program reads of it.  A computation runs in a state [S] and ends in a
    value or in a raised exception; the state is kept in both cases. *)

Inductive outcome (A : Type) : Type :=
| Ok (a : A)
| Raise (e : str).
Arguments Ok {A} a.
Arguments Raise {A} e.

Definition M (S A : Type) : Type := S -> outcome A * S.

Definition ret {S A} (a : A) : M S A := fun s => (Ok a, s).

Definition raise {S A} (e : str) : M S A := fun s => (Raise e, s).

Definition bind {S A B} (m : M S A) (k : A -> M S B) : M S B :=
  fun s =>
    match m s with
    | (Ok a, s') => k a s'
    | (Raise e, s') => (Raise e, s')
    end.

(** [try: m  except Exception as e: handler e] *)
Definition try_except {S A} (m : M S A) (handler : str -> M S A) : M S A :=
  fun s =>
    match m s with
    | (Ok a, s') => (Ok a, s')
    | (Raise e, s') => handler e s'
    end.

(** A pure step that may raise. *)
Definition lift {S A} (o : outcome A) : M S A := fun s => (o, s).

Declare Scope py_scope.
Delimit Scope py_scope with py.
Notation "x <- m ;; k" := (bind m (fun x => k))
  (at level 61, m at next level, right associativity) : py_scope.
Notation "' p <- m ;; k" := (bind m (fun x => match x with p => k end))
  (at level 61, p pattern, m at next level, right associativity) : py_scope.

(** ** The regular expressions of the program *)

Module Re.

Definition not_space (c : ascii) : bool := negb (is_space c).
Definition is_nl (c : ascii) : bool := ascii_eqb c "010"%char.

(** [URL: (https?://[^\s]+)] matched at the head of [s]: group 1 and the
    number of characters the match covers. *)
Definition match_url (s : str) : option (str * nat) :=
  if starts_with (lit "URL: http") s then
    let rest := skipn 9 s in
    let host (scheme : str) (k : nat) (tail : str) :=
      match fst (span not_space tail) with
      | [] => None
      | run => Some (scheme ++ run, (k + List.length run)%nat)
      end in
    if starts_with (lit "s://") rest then host (lit "https://") 13%nat (skipn 4 rest)
    else if starts_with (lit "://") rest then host (lit "http://") 12%nat (skipn 3 rest)
    else None
  else None.

(** The scan of [re.findall]: [skip] characters of the previous match are
    still to be passed over. *)
Fixpoint findall_urls_from (s : str) (skip : nat) : list str :=
  match s with
  | [] => []
  | _ :: s' =>
      match skip with
      | S k => findall_urls_from s' k
      | O =>
          match match_url s with
          | Some (g, n) => g :: findall_urls_from s' (n - 1)
          | None => findall_urls_from s' 0
          end
      end
  end.

(** [re.findall(r"URL: (https?://[^\s]+)", s)] *)
Definition findall_urls (s : str) : list str := findall_urls_from s 0.

(** [Title: (.+?)\n] matched at the head of [s]: group 1. *)
Definition match_title (s : str) : option str :=
  if starts_with (lit "Title: ") s then
    match skipn 7 s with
    | c :: rest =>
        if is_nl c then None
        else
          let (run, after) := span (fun x => negb (is_nl x)) rest in
          match after with
          | [] => None
          | _ :: _ => Some (c :: run)
          end
    | [] => None
    end
  else None.

(** [re.search(r"Title: (.+?)\n", s)], group 1 of the first match. *)
Fixpoint search_title (s : str) : option str :=
  match match_title s with
  | Some g => Some g
  | None =>
      match s with
      | [] => None
      | _ :: s' => search_title s'
      end
  end.

Definition not_amp (c : ascii) : bool := negb (ascii_eqb c "&"%char).

(** [uddg=([^&]+)] matched at the head of [s]: group 1. *)
Definition match_uddg (s : str) : option str :=
  if starts_with (lit "uddg=") s then
    match fst (span not_amp (skipn 5 s)) with
    | [] => None
    | run => Some run
    end
  else None.

(** [re.search(r"uddg=([^&]+)", s)], group 1 of the first match. *)
Fixpoint search_uddg (s : str) : option str :=
  match match_uddg s with
  | Some g => Some g
  | None =>
      match s with
      | [] => None
      | _ :: s' => search_uddg s'
      end
  end.

(** [re.sub(r'\s+', ' ', s)]; [in_run] holds inside a run of white space
    that has already been replaced. *)
Fixpoint collapse_spaces_from (s : str) (in_run : bool) : str :=
  match s with
  | [] => []
  | c :: s' =>
      if is_space c
      then if in_run then collapse_spaces_from s' true
           else " "%char :: collapse_spaces_from s' true
      else c :: collapse_spaces_from s' false
  end.

Definition collapse_spaces (s : str) : str := collapse_spaces_from s false.

End Re.

(** ** What the program reads of the outside world *)

(** An HTTP response of the client: [status_code], [headers], [text]. *)
Record Response : Type := {
  status_code : Z;
  headers : list (str * str);
  text : str
}.

(** [headers.get(key, default)]: header names compare without case, the
    values of a repeated header are joined. *)
Definition headers_get (h : list (str * str)) (key default : str) : str :=
  match filter (fun kv => str_eqb (lower (fst kv)) (lower key)) h with
  | [] => default
  | found => join (lit ", ") (map snd found)
  end.

(** One [.result] block of the search page, as [_web_search] reads it:
    the element selected by [.result__title a] (its text and its [href]
    attribute) and the text of the element selected by [.result__snippet]. *)
Record TitleElem : Type := {
  title_text : str;
  title_href : option str
}.

Record ResultBlock : Type := {
  title_elem : option TitleElem;
  snippet_elem : option str
}.

(** A parsed document, as the program queries it. *)
Record Soup : Type := {
  (** [soup.select(".result")] *)
  select_result : list ResultBlock;
  (** [soup.title], and its [.string] *)
  soup_title : option (option str);
  (** [soup.find("meta", attrs={"name": "description"})], and its
      [content] attribute *)
  soup_meta_description : option (option str);
  (** every element in document order: its name and its [get_text()] *)
  soup_elements : list (str * str);
  (** [soup.get_text()] *)
  soup_text : str
}.

(** [soup.find_all(names)] reduced to the text of each element found. *)
Definition find_all (soup : Soup) (names : list str) : list str :=
  map snd (filter (fun e => in_list (fst e) names) (soup_elements soup)).

(** A key of a decoded JSON object: missing, [null], or a value. *)
Inductive field (A : Type) : Type :=
| Absent
| Null
| Val (a : A).
Arguments Absent {A}.
Arguments Null {A}.
Arguments Val {A} a.

Record Author : Type := { author_name : field str }.

Record Paper : Type := {
  paper_title : field str;
  paper_authors : field (list Author);
  paper_year : field Z;
  paper_venue : field str;
  paper_url : field str;
  paper_abstract : field str
}.

(** [d.get(key, default)]: [None] stands for Python's [None]. *)
Definition get {A} (f : field A) (default : A) : option A :=
  match f with
  | Absent => Some default
  | Null => None
  | Val a => Some a
  end.

Definition USER_AGENT : str :=
  lit "Mozilla/5.0 (Windows NT 10.0; Win64; x64) AppleWebKit/537.36 (KHTML, like Gecko) Chrome/91.0.4472.124 Safari/537.36".

Definition not_subscriptable : str := lit "'NoneType' object is not subscriptable".
Definition not_iterable : str := lit "'NoneType' object is not iterable".

(** [x[:k]] where [x] may be [None]. *)
Definition slice_opt (x : option str) (k : Z) : outcome str :=
  match x with
  | Some s => Ok (slice_to s k)
  | None => Raise not_subscriptable
  end.

Local Open Scope py_scope.

(** ** The adapters and the link extractor (lines 184-382) *)

Record SearchResult : Type := {
  sr_title : str;
  sr_url : str;
  sr_authors_info : str;
  sr_snippet : str
}.

Section Adapters.

Context {W : Type}.

(** [await client.get(url, headers=headers)] *)
Variable http_get : str -> list (str * str) -> M W Response.
(** [urllib.parse.quote_plus], [urllib.parse.unquote] *)
Variable quote_plus : str -> str.
Variable unquote : str -> str.
(** The message of the error [raise_for_status] raises. *)
Variable status_error_message : Response -> str.
(** [BeautifulSoup(markup, "html.parser")] *)
Variable BeautifulSoup : str -> outcome Soup.
(** The [data] key of [response.json()]. *)
Variable response_json_data : Response -> outcome (field (list Paper)).

(** [response.is_success]: the 2xx codes. *)
Definition is_success (response : Response) : bool :=
  (200 <=? status_code response) && (status_code response <=? 299).

(** [response.raise_for_status()] *)
Definition raise_for_status (response : Response) : outcome unit :=
  if is_success response then Ok tt else Raise (status_error_message response).

(** The loop of lines 208-235 over the result blocks. *)
Fixpoint web_hits (num_results : Z) (result_blocks : list ResultBlock)
    (search_results : list SearchResult) : list SearchResult :=
  match result_blocks with
  | [] => search_results
  | block :: rest =>
      if len search_results >=? num_results then search_results
      else
        match title_elem block with
        | None => web_hits num_results rest search_results
        | Some elem =>
            let title := strip (title_text elem) in
            let href := match title_href elem with Some h => h | None => [] end in
            let href :=
              if contains (lit "duckduckgo.com") href
              then match Re.search_uddg href with
                   | Some g => unquote g
                   | None => href
                   end
              else href in
            let snippet :=
              match snippet_elem block with
              | Some t => strip t
              | None => lit "No snippet available"
              end in
            web_hits num_results rest
              (search_results ++
               [{| sr_title := slice_to title 100;
                   sr_url := slice_to href 150;
                   sr_authors_info := [];
                   sr_snippet := slice_to snippet 200 |}])
        end
  end.

(** The loop of lines 239-242, [i] counting from 1. *)
Fixpoint format_web (i : Z) (search_results : list SearchResult) : str :=
  match search_results with
  | [] => []
  | result :: rest =>
      (str_of_Z i ++ lit ". " ++ sr_title result ++ nl)
      ++ (lit "   URL: " ++ sr_url result ++ nl)
      ++ (lit "   " ++ sr_snippet result ++ para_break)
      ++ format_web (i + 1) rest
  end.

Definition _web_search (query : str) (num_results : Z) : M W str :=
  try_except
    (let encoded_query := quote_plus query in
     let url := lit "https://html.duckduckgo.com/html/?q=" ++ encoded_query in
     let request_headers := [(lit "User-Agent", USER_AGENT);
                     (lit "Accept", lit "text/html,application/xhtml+xml")] in
     response <- http_get url request_headers ;;
     _ <- lift (raise_for_status response) ;;
     soup <- lift (BeautifulSoup (text response)) ;;
     let search_results := web_hits num_results (select_result soup) [] in
     let results_text :=
       lit "Web search results for: " ++ query ++ para_break
       ++ format_web 1 search_results in
     ret (match search_results with
          | _ :: _ => results_text
          | [] => lit "No web results found for: " ++ query
          end))
    (fun e => raise e).

(** Lines 278-283: the author text of one paper. *)
Definition author_text (authors : list Author) : str :=
  let author_names :=
    flat_map (fun author =>
                match author_name author with
                | Val ((_ :: _) as name) => [name]
                | _ => []
                end) authors in
  let author_names := slice_to author_names 3 in
  let author_names :=
    if len authors >? 3 then author_names ++ [lit "et al."] else author_names in
  match author_names with
  | _ :: _ => join (lit ", ") author_names
  | [] => lit "Unknown authors"
  end.

(** Lines 275-301: one paper made a record. *)
Definition paper_result (paper : Paper) : outcome SearchResult :=
  let title := get (paper_title paper) (lit "Untitled Paper") in
  match get (paper_authors paper) [] with
  | None => Raise not_iterable
  | Some authors =>
      let author_text := author_text authors in
      let year :=
        match paper_year paper with
        | Absent => []
        | Null => lit "None"
        | Val y => str_of_Z y
        end in
      let pub_info := author_text ++ lit " (" ++ year ++ lit ")" in
      let pub_info :=
        match paper_venue paper with
        | Val ((_ :: _) as venue) => pub_info ++ lit " - " ++ venue
        | _ => pub_info
        end in
      let url := get (paper_url paper) [] in
      let abstract := get (paper_abstract paper) (lit "No abstract available") in
      match slice_opt title 100 with
      | Raise e => Raise e
      | Ok title' =>
          match slice_opt url 150 with
          | Raise e => Raise e
          | Ok url' =>
              match slice_opt abstract 200 with
              | Raise e => Raise e
              | Ok snippet =>
                  Ok {| sr_title := title';
                        sr_url := url';
                        sr_authors_info := slice_to pub_info 150;
                        sr_snippet := snippet |}
              end
          end
      end
  end.

(** The loop of lines 274-301. *)
Fixpoint academic_hits (results : list Paper) (search_results : list SearchResult)
    : outcome (list SearchResult) :=
  match results with
  | [] => Ok search_results
  | paper :: rest =>
      match paper_result paper with
      | Raise e => Raise e
      | Ok r => academic_hits rest (search_results ++ [r])
      end
  end.

(** The loop of lines 305-310, [i] counting from 1. *)
Fixpoint format_academic (i : Z) (search_results : list SearchResult) : str :=
  match search_results with
  | [] => []
  | result :: rest =>
      (str_of_Z i ++ lit ". " ++ sr_title result ++ nl)
      ++ (match sr_url result with
          | _ :: _ => lit "   URL: " ++ sr_url result ++ nl
          | [] => []
          end)
      ++ (lit "   " ++ sr_authors_info result ++ nl)
      ++ (lit "   " ++ sr_snippet result ++ para_break)
      ++ format_academic (i + 1) rest
  end.

Definition _academic_search (query : str) (num_results : Z) : M W str :=
  try_except
    (let encoded_query := quote_plus query in
     let url :=
       lit "https://api.semanticscholar.org/graph/v1/paper/search?query="
       ++ encoded_query ++ lit "&limit=" ++ str_of_Z num_results
       ++ lit "&fields=title,authors,year,venue,url,abstract" in
     let request_headers := [(lit "User-Agent", USER_AGENT);
                     (lit "Accept", lit "application/json")] in
     response <- http_get url request_headers ;;
     if negb (status_code response =? 200)
     then ret (lit "Academic search error: API returned status "
               ++ str_of_Z (status_code response))
     else
       data <- lift (response_json_data response) ;;
       match get data [] with
       | None | Some [] =>
           ret (lit "No academic results found. Try refining your search.")
       | Some results =>
           search_results <- lift (academic_hits results []) ;;
           ret (lit "Academic search results for: " ++ query ++ para_break
                ++ format_academic 1 search_results)
       end)
    (fun e => raise e).

(** The loops of lines 351-356 and 361-366: the elements before index
    [limit] whose stripped text is longer than [min_len], cut to [cap]. *)
Fixpoint scan_texts (limit min_len cap : Z) (i : Z) (elements : list str)
    (content_texts : list str) : list str :=
  match elements with
  | [] => content_texts
  | elem :: rest =>
      if i >=? limit then content_texts
      else
        let text := strip elem in
        scan_texts limit min_len cap (i + 1) rest
          (match text with
           | _ :: _ =>
               if len text >? min_len
               then content_texts ++ [slice_to text cap]
               else content_texts
           | [] => content_texts
           end)
  end.

(** Lines 347-372: the excerpt cascade. *)
Definition content_of (soup : Soup) : list str :=
  let content_texts := [] in
  let paragraphs := find_all soup [lit "p"] in
  let content_texts := scan_texts 5 15 300 0 paragraphs content_texts in
  let content_texts :=
    if len content_texts <? 2
    then
      let elements := find_all soup [lit "h1"; lit "h2"; lit "h3"; lit "p"] in
      scan_texts 8 10 200 0 elements content_texts
    else content_texts in
  match content_texts with
  | [] =>
      let all_text := soup_text soup in
      let clean_text := strip (Re.collapse_spaces all_text) in
      [slice_to clean_text 500]
  | _ :: _ => content_texts
  end.

Definition PDF_CONTENT : str :=
  lit "Content: [PDF document - contents cannot be extracted directly]".

Definition _follow_link (url : str) : M W str :=
  try_except
    (let request_headers := [(lit "User-Agent", USER_AGENT);
                     (lit "Accept", lit "text/html,application/xhtml+xml")] in
     response <- http_get url request_headers ;;
     let content_type :=
       lower (headers_get (headers response) (lit "content-type") []) in
     if contains (lit "application/pdf") content_type
     then ret (lit "Title: PDF Document" ++ nl ++ lit "URL: " ++ url
               ++ para_break ++ PDF_CONTENT)
     else
       soup <- lift (BeautifulSoup (slice_to (text response) 100000)) ;;
       let title :=
         match soup_title soup with
         | Some (Some ((_ :: _) as s)) => strip s
         | _ => lit "No title"
         end in
       let description :=
         match soup_meta_description soup with
         | Some (Some content) => content
         | _ => lit "No description available"
         end in
       let content := join para_break (content_of soup) in
       ret (lit "Title: " ++ slice_to title 100 ++ nl
            ++ lit "URL: " ++ url ++ nl
            ++ lit "Description: " ++ slice_to description 200 ++ para_break
            ++ lit "Content:" ++ nl ++ content))
    (fun e => raise e).

End Adapters.

(** ** The orchestrator (lines 69-182) *)

(** The calls the orchestrator makes, in the order it makes them. *)
Inductive call : Type :=
| CallWebSearch (query : str) (num_results : Z)
| CallAcademicSearch (query : str) (num_results : Z)
| CallFollowLink (url : str).

Definition is_follow (c : call) : bool :=
  match c with
  | CallFollowLink _ => true
  | _ => false
  end.

(** The number of calls to the link extractor in a trace. *)
Definition follow_calls (trace : list call) : nat :=
  List.length (filter is_follow trace).

(** [await f]: the call is recorded, then made. *)
Definition await {W A} (c : call) (f : M W A) : M (W * list call) A :=
  fun s =>
    let (r, w') := f (fst s) in
    (r, (w', snd s ++ [c])).

Definition NO_RESULTS : str :=
  lit "No valid search results found. Please try a different query.".

Definition SEPARATOR : str := repeat "="%char 40.

(** Lines 84-85. *)
Definition clamp_results (num_results : Z) : Z :=
  if num_results >? MAX_RESULTS then MAX_RESULTS else num_results.

(** Lines 87-89. *)
Definition normalize_sources (sources : str) : str :=
  let sources := strip (lower sources) in
  if negb (in_list sources [lit "web"; lit "academic"; lit "both"])
  then lit "both" else sources.

(** The loop of lines 128-132 over [range(max(len(web_urls), len(academic_urls)))]. *)
Fixpoint interleave_rounds (rounds : list nat) (web_urls academic_urls : list str)
    (combined_urls : list (str * str)) : list (str * str) :=
  match rounds with
  | [] => combined_urls
  | i :: rest =>
      let combined_urls :=
        match nth_error web_urls i with
        | Some url => combined_urls ++ [(lit "web", url)]
        | None => combined_urls
        end in
      let combined_urls :=
        match nth_error academic_urls i with
        | Some url => combined_urls ++ [(lit "academic", url)]
        | None => combined_urls
        end in
      interleave_rounds rest web_urls academic_urls combined_urls
  end.

(** Lines 126-138. *)
Definition combine_urls (sources : str) (web_urls academic_urls : list str)
    (num_results : Z) : list (str * str) :=
  if str_eqb sources (lit "both") then
    let combined_urls :=
      interleave_rounds
        (seq 0 (Nat.max (List.length web_urls) (List.length academic_urls)))
        web_urls academic_urls [] in
    slice_to combined_urls num_results
  else if str_eqb sources (lit "web") then
    map (fun url => (lit "web", url)) (slice_to web_urls num_results)
  else
    map (fun url => (lit "academic", url)) (slice_to academic_urls num_results).

(** Lines 164-168. *)
Definition summary_of (query sources : str) (combined_urls : list (str * str)) : str :=
  let summary := nl ++ lit "RESEARCH SUMMARY:" ++ nl in
  let summary := summary ++ lit "Completed research on: " ++ query ++ nl in
  let source_summary :=
    if str_eqb sources (lit "both") then lit "web and academic databases"
    else sources ++ lit " sources" in
  let summary :=
    summary ++ lit "Examined " ++ str_of_Z (len combined_urls)
    ++ lit " sources from " ++ source_summary ++ nl in
  summary
  ++ lit "The information above represents the most relevant content found on this topic."
  ++ nl.

(** Lines 171-176: the body cut to its budget, then the summary. *)
Definition finish (result summary : str) : str :=
  let max_size := MAX_CONTENT_SIZE - len summary - 50 in
  let result :=
    if len result >? max_size then safe_truncate result max_size else result in
  result ++ summary.

Section Orchestrator.

Context {W : Type}.

Variable web_search : str -> Z -> M W str.
Variable academic_search : str -> Z -> M W str.
Variable follow_link : str -> M W str.

Local Abbreviation St := (W * list call)%type.

(** Lines 92-95. *)
Definition intro (query sources : str) : str :=
  let result := lit "Research Query: " ++ query ++ para_break in
  let source_text :=
    if str_eqb sources (lit "both") then lit "web and academic sources"
    else sources ++ lit " sources" in
  result ++ lit "Searching " ++ source_text ++ lit "..." ++ para_break.

(** Lines 98-107: the report and [web_urls] after the web search. *)
Definition collect_web (query sources : str) (num_results : Z) (result : str)
    : M St (str * list str) :=
  if in_list sources [lit "web"; lit "both"] then
    try_except
      (web_results <- await (CallWebSearch query num_results)
                            (web_search query num_results) ;;
       let result := result ++ lit "WEB SEARCH RESULTS:" ++ nl ++ web_results ++ para_break in
       let web_urls := Re.findall_urls web_results in
       ret (result, slice_to web_urls num_results))
      (fun e =>
         ret (result ++ lit "WEB SEARCH ERROR: " ++ slice_to e 100 ++ para_break, []))
  else ret (result, []).

(** Lines 110-119: the report and [academic_urls] after the academic search. *)
Definition collect_academic (query sources : str) (num_results : Z) (result : str)
    : M St (str * list str) :=
  if in_list sources [lit "academic"; lit "both"] then
    try_except
      (academic_results <- await (CallAcademicSearch query num_results)
                                 (academic_search query num_results) ;;
       let result :=
         result ++ lit "ACADEMIC SEARCH RESULTS:" ++ nl ++ academic_results ++ para_break in
       let academic_urls := Re.findall_urls academic_results in
       ret (result, slice_to academic_urls num_results))
      (fun e =>
         ret (result ++ lit "ACADEMIC SEARCH ERROR: " ++ slice_to e 100 ++ para_break, []))
  else ret (result, []).

(** Lines 98-119: both searches, one after the other. *)
Definition collect (query sources : str) (num_results : Z)
    : M St (str * list str * list str) :=
  '(result, web_urls) <- collect_web query sources num_results (intro query sources) ;;
  '(result, academic_urls) <- collect_academic query sources num_results result ;;
  ret (result, web_urls, academic_urls).

(** The loop of lines 143-160, [i] counting from 1. *)
Fixpoint follow_all (i : Z) (combined_urls : list (str * str)) (result : str)
    : M St str :=
  match combined_urls with
  | [] => ret result
  | (source_type, url) :: rest =>
      result <-
        try_except
          (page_content <- await (CallFollowLink url) (follow_link url) ;;
           let title :=
             match Re.search_title page_content with
             | Some g => g
             | None => lit "Source " ++ str_of_Z i
             end in
           let result :=
             result ++ SEPARATOR ++ nl ++ lit "SOURCE " ++ str_of_Z i ++ lit " ("
             ++ source_type ++ lit "): " ++ title ++ nl ++ SEPARATOR ++ para_break in
           ret (result ++ page_content ++ para_break))
          (fun e =>
             let result :=
               result ++ SEPARATOR ++ nl ++ lit "SOURCE " ++ str_of_Z i ++ lit " ("
               ++ source_type ++ lit "): Error following URL" ++ nl ++ SEPARATOR ++ nl in
             ret (result ++ lit "Error: " ++ slice_to e 100 ++ para_break)) ;;
      follow_all (i + 1) rest result
  end.

(** Lines 92-178: the body of the outer [try]. *)
Definition research_body (query sources : str) (num_results : Z) : M St str :=
  '(result, web_urls, academic_urls) <- collect query sources num_results ;;
  match web_urls, academic_urls with
  | [], [] => ret (result ++ NO_RESULTS)
  | _, _ =>
      let combined_urls := combine_urls sources web_urls academic_urls num_results in
      let result :=
        result ++ lit "DETAILED CONTENT FROM TOP " ++ str_of_Z (len combined_urls)
        ++ lit " SOURCES:" ++ para_break in
      result <- follow_all 1 combined_urls result ;;
      ret (finish result (summary_of query sources combined_urls))
  end.

(** Lines 91 and 180-182: the outer [try] and its handler. *)
Definition top_level (body : M St str) : M St str :=
  try_except body (fun e => ret (lit "Research error: " ++ slice_to e 200)).

(** [deep_research] over any adapters and link extractor. *)
Definition research (query sources : str) (num_results : Z) : M St str :=
  let num_results := clamp_results num_results in
  let sources := normalize_sources sources in
  top_level (research_body query sources num_results).

End Orchestrator.

(** ** The program: the orchestrator over its own adapters *)

Section Program.

Context {W : Type}.
Variable http_get : str -> list (str * str) -> M W Response.
Variable quote_plus : str -> str.
Variable unquote : str -> str.
Variable status_error_message : Response -> str.
Variable BeautifulSoup : str -> outcome Soup.
Variable response_json_data : Response -> outcome (field (list Paper)).

Definition deep_research (query sources : str) (num_results : Z)
    : M (W * list call) str :=
  research
    (_web_search http_get quote_plus unquote status_error_message BeautifulSoup)
    (_academic_search http_get quote_plus response_json_data)
    (_follow_link http_get BeautifulSoup)
    query sources num_results.

End Program.

(** ** The spec's wording, for comparison with the code *)

Definition tag_web (url : str) : str * str := (lit "web", url).
Definition tag_academic (url : str) : str * str := (lit "academic", url).

(** One URL of the web list, then one of the academic list, per round,
    until both lists are exhausted. *)
Fixpoint interleave (web_urls academic_urls : list str) : list (str * str) :=
  match web_urls with
  | [] => map tag_academic academic_urls
  | w :: ws =>
      tag_web w ::
      match academic_urls with
      | [] => map tag_web ws
      | a :: acs => tag_academic a :: interleave ws acs
      end
  end.

(** The authors that carry a name, and their names. *)
Definition has_name (author : Author) : bool :=
  match author_name author with
  | Val (_ :: _) => true
  | _ => false
  end.

Definition name_of (author : Author) : str :=
  match author_name author with
  | Val name => name
  | _ => []
  end.

Definition named (authors : list Author) : list str :=
  map name_of (filter has_name authors).

(** Among the first [limit] elements, those whose trimmed text is longer
    than [min_len], each cut to [cap] characters. *)
Definition fragments (limit min_len cap : Z) (elements : list str) : list str :=
  map (fun t => slice_to t cap)
      (filter (fun t => len t >? min_len) (map strip (slice_to elements limit))).

(** The whole-text fallback of the cascade. *)
Definition whole_text (soup : Soup) : list str :=
  [slice_to (strip (Re.collapse_spaces (soup_text soup))) 500].

(** The title and the description [_follow_link] shows for a parsed page. *)
Definition page_title (soup : Soup) : str :=
  match soup_title soup with
  | Some (Some ((_ :: _) as s)) => strip s
  | _ => lit "No title"
  end.

Definition page_description (soup : Soup) : str :=
  match soup_meta_description soup with
  | Some (Some content) => content
  | _ => lit "No description available"
  end.

(** The block [_follow_link] returns for a parsed page. *)
Definition page_block (url title description content : str) : str :=
  lit "Title: " ++ title ++ nl ++ lit "URL: " ++ url ++ nl
  ++ lit "Description: " ++ description ++ para_break
  ++ lit "Content:" ++ nl ++ content.

(** ** The requests the adapters send *)

Definition web_request_url (quote_plus : str -> str) (query : str) : str :=
  lit "https://html.duckduckgo.com/html/?q=" ++ quote_plus query.

Definition academic_request_url (quote_plus : str -> str) (query : str)
    (num_results : Z) : str :=
  lit "https://api.semanticscholar.org/graph/v1/paper/search?query="
  ++ quote_plus query ++ lit "&limit=" ++ str_of_Z num_results
  ++ lit "&fields=title,authors,year,venue,url,abstract".

Definition html_headers : list (str * str) :=
  [(lit "User-Agent", USER_AGENT); (lit "Accept", lit "text/html,application/xhtml+xml")].

Definition json_headers : list (str * str) :=
  [(lit "User-Agent", USER_AGENT); (lit "Accept", lit "application/json")].

(** The line the orchestrator writes for a failed web search. *)
Definition web_error_line (e : str) : str :=
  lit "WEB SEARCH ERROR: " ++ slice_to e 100 ++ para_break.

(** The size the body is cut to, given the summary. *)
Definition budget (summary : str) : Z := MAX_CONTENT_SIZE - len summary - 50.

(** ** Sample inputs *)

Module Sample.

(** Ten characters with a paragraph break after the fifth. *)
Definition short_text : str := lit "aaaaa" ++ para_break ++ lit "aaa".

(** Seventy-two characters with a paragraph break after the twentieth. *)
Definition long_text : str :=
  repeat "a"%char 20 ++ para_break ++ repeat "b"%char 50.

(** A query long enough to leave the body a budget of a few hundred
    characters. *)
Definition long_query : str := repeat "a"%char (Z.to_nat 7000).

(** Four authors, the last one without a name. *)
Definition four_authors : list Author :=
  [ {| author_name := Val (lit "Ada") |};
    {| author_name := Val (lit "Bob") |};
    {| author_name := Val (lit "Cy") |};
    {| author_name := Absent |} ].

(** A page made of one paragraph of sixteen characters. *)
Definition one_paragraph : Soup :=
  {| select_result := [];
     soup_title := None;
     soup_meta_description := None;
     soup_elements := [(lit "p", lit "sixteen letters!")];
     soup_text := lit "sixteen letters!" |}.

(** A page made of three headings and no paragraph. *)
Definition three_headings : Soup :=
  {| select_result := [];
     soup_title := None;
     soup_meta_description := None;
     soup_elements := [(lit "h1", lit "First heading");
                       (lit "h2", lit "Second heading");
                       (lit "h3", lit "Third heading")];
     soup_text := lit "First headingSecond headingThird heading" |}.

(** Eight empty paragraphs, then three headings. *)
Definition late_headings : Soup :=
  {| select_result := [];
     soup_title := None;
     soup_meta_description := None;
     soup_elements := repeat (lit "p", []) 8
                      ++ [(lit "h1", lit "First heading");
                          (lit "h2", lit "Second heading");
                          (lit "h3", lit "Third heading")];
     soup_text := lit "First headingSecond headingThird heading" |}.

(** A world that counts the requests made. *)
Definition World : Type := nat.

(** Adapters for the orchestrator: one that fails, one that finds nothing,
    one that finds a single page, and an extractor that returns a page. *)
Definition failing_search (query : str) (num_results : Z) : M World str :=
  fun w => (Raise (lit "connection refused"), S w).

Definition empty_search (query : str) (num_results : Z) : M World str :=
  fun w => (Ok (lit "No web results found for: " ++ query), S w).

Definition one_hit_search (query : str) (num_results : Z) : M World str :=
  fun w =>
    (Ok (lit "Web search results for: " ++ query ++ para_break
         ++ lit "1. Example" ++ nl ++ lit "   URL: https://example.org/a" ++ nl
         ++ lit "   An example page" ++ para_break), S w).

Definition page (url : str) : M World str :=
  fun w =>
    (Ok (lit "Title: Example" ++ nl ++ lit "URL: " ++ url ++ nl
         ++ lit "Description: none" ++ para_break ++ lit "Content:" ++ nl
         ++ lit "An example page with some text."), S w).

(** An HTTP client that answers every request with the same status,
    content type and body. *)
Definition constant_get (status : Z) (content_type body : str)
    : str -> list (str * str) -> M World Response :=
  fun _ _ w =>
    (Ok {| status_code := status;
           headers := [(lit "Content-Type", content_type)];
           text := body |}, S w).

Definition plain_quote (s : str) : str := s.

Definition status_message (response : Response) : str :=
  lit "HTTP status " ++ str_of_Z (status_code response).

(** A parser that finds no element and keeps the markup as the text. *)
Definition text_only_parser (markup : str) : outcome Soup :=
  Ok {| select_result := [];
        soup_title := None;
        soup_meta_description := None;
        soup_elements := [];
        soup_text := markup |}.

Definition no_data (response : Response) : outcome (field (list Paper)) := Ok Absent.

End Sample.

(** ** Views used to state properties of the orchestrator *)

(** The searches a request makes, in order. *)
Definition search_calls (sources query : str) (num_results : Z) : list call :=
  (if in_list sources [lit "web"; lit "both"]
   then [CallWebSearch query num_results] else [])
  ++ (if in_list sources [lit "academic"; lit "both"]
      then [CallAcademicSearch query num_results] else []).

(** The URLs of one kind in a combined list, in order. *)
Definition urls_of (kind : str) (combined_urls : list (str * str)) : list str :=
  map snd (filter (fun u => str_eqb (fst u) kind) combined_urls).

(** ** Views used to state properties of the adapters *)

(** The result blocks that have a title link. *)
Definition titled (result_blocks : list ResultBlock) : list ResultBlock :=
  filter (fun block => match title_elem block with Some _ => true | None => false end)
         result_blocks.

(** The length caps of a result record. *)
Definition within_caps (r : SearchResult) : Prop :=
  len (sr_title r) <= 100 /\ len (sr_url r) <= 150
  /\ len (sr_authors_info r) <= 150 /\ len (sr_snippet r) <= 200.

(** A paper whose title, author list, URL and abstract are not [null]. *)
Definition no_null (paper : Paper) : bool :=
  match paper_title paper, paper_authors paper, paper_url paper, paper_abstract paper with
  | Null, _, _, _ | _, Null, _, _ | _, _, Null, _ | _, _, _, Null => false
  | _, _, _, _ => true
  end.

(** ** Views used to state the round trip through the rendered text *)

(** The text every match of the URL pattern starts with. *)
Definition URL_MARKER : str := lit "URL: http".

Definition no_marker (s : str) : Prop := contains URL_MARKER s = false.

Definition not_U (c : ascii) : bool := negb (ascii_eqb "U"%char c).

(** A URL the pattern recovers whole: a scheme, then at least one
    character, none of them white space. *)
Definition well_formed_url (url : str) : Prop :=
  exists scheme run,
    url = scheme ++ run
    /\ (scheme = lit "http://" \/ scheme = lit "https://")
    /\ run <> []
    /\ forallb Re.not_space run = true.

(** A web hit whose title and snippet do not imitate a URL line. *)
Definition plain_hit (r : SearchResult) : Prop :=
  no_marker (sr_title r) /\ no_marker (sr_snippet r) /\ well_formed_url (sr_url r).

(** An academic hit, whose URL may be missing. *)
Definition plain_paper_hit (r : SearchResult) : Prop :=
  no_marker (sr_title r) /\ no_marker (sr_authors_info r) /\ no_marker (sr_snippet r)
  /\ (sr_url r = [] \/ well_formed_url (sr_url r)).

(** The URLs that are not empty. *)
Definition present_urls (hits : list SearchResult) : list str :=
  filter (fun u => match u with [] => false | _ :: _ => true end) (map sr_url hits).

(** A text of one line. *)
Definition no_newline (s : str) : bool := forallb (fun c => negb (Re.is_nl c)) s.

(** The block [_follow_link] returns for a PDF. *)
Definition pdf_block (url : str) : str :=
  lit "Title: PDF Document" ++ nl ++ lit "URL: " ++ url ++ para_break ++ PDF_CONTENT.

(** The start of the heading of the [i]-th source block. *)
Definition source_heading (i : Z) (source_type : str) : str :=
  SEPARATOR ++ nl ++ lit "SOURCE " ++ str_of_Z i ++ lit " (" ++ source_type ++ lit "): ".

(** ** Further sample inputs *)

Module Sample2.

(** A hundred and twenty characters with a paragraph break after the
    sixtieth. *)
Definition two_paragraphs : str :=
  repeat "a"%char 60 ++ para_break ++ repeat "b"%char 58.

(** A hundred and twenty characters without a paragraph break. *)
Definition one_block : str := repeat "a"%char 120.

(** A search page of three blocks, the second without a title link. *)
Definition three_blocks : list ResultBlock :=
  [ {| title_elem := Some {| title_text := lit " First "; title_href := Some (lit "https://a.org/1") |};
       snippet_elem := Some (lit "one") |};
    {| title_elem := None; snippet_elem := Some (lit "an advertisement") |};
    {| title_elem := Some {| title_text := lit "Third"; title_href := None |};
       snippet_elem := None |} ].

(** A paper whose abstract is [null], as the API answers when it has none. *)
Definition paper_without_abstract : Paper :=
  {| paper_title := Val (lit "A paper");
     paper_authors := Val [ {| author_name := Val (lit "Ada") |} ];
     paper_year := Val 2020;
     paper_venue := Val (lit "Venue");
     paper_url := Val (lit "https://s2.org/p/1");
     paper_abstract := Null |}.

Definition complete_paper : Paper :=
  {| paper_title := Val (lit "A paper");
     paper_authors := Val [ {| author_name := Val (lit "Ada") |} ];
     paper_year := Val 2020;
     paper_venue := Absent;
     paper_url := Absent;
     paper_abstract := Absent |}.

(** Two web hits as the adapter stores them. *)
Definition two_hits : list SearchResult :=
  [ {| sr_title := lit "First"; sr_url := lit "https://a.org/1";
       sr_authors_info := []; sr_snippet := lit "one" |};
    {| sr_title := lit "Second"; sr_url := lit "http://b.org/2?x=1";
       sr_authors_info := []; sr_snippet := lit "two" |} ].

(** Two academic hits, the second without a URL. *)
Definition two_paper_hits : list SearchResult :=
  [ {| sr_title := lit "Paper one"; sr_url := lit "https://s2.org/p/1";
       sr_authors_info := lit "Ada (2020)"; sr_snippet := lit "abstract one" |};
    {| sr_title := lit "Paper two"; sr_url := [];
       sr_authors_info := lit "Bob (2021)"; sr_snippet := lit "abstract two" |} ].

(** A decoder that finds the given papers under [data]. *)
Definition json_with (papers : list Paper) (response : Response)
    : outcome (field (list Paper)) := Ok (Val papers).

End Sample2.

(** * Properties *)

(** ** Strings and slices *)

Lemma len_nonneg {A} (s : list A) : 0 <= len s.
Proof. unfold len. lia. Qed.

Lemma len_app {A} (a b : list A) : len (a ++ b) = len a + len b.
Proof. unfold len. rewrite length_app. lia. Qed.

Lemma slice_to_nonneg {A} (s : list A) (k : Z) :
  0 <= k -> slice_to s k = firstn (Z.to_nat k) s.
Proof.
  intros Hk. unfold slice_to.
  destruct (k <? 0) eqn:E; [apply Z.ltb_lt in E; lia | reflexivity].
Qed.

Lemma len_slice_to {A} (s : list A) (k : Z) :
  0 <= k -> len (slice_to s k) = Z.min k (len s).
Proof.
  intros Hk. rewrite slice_to_nonneg by assumption.
  unfold len. rewrite length_firstn. lia.
Qed.

Lemma slice_to_all {A} (s : list A) (k : Z) :
  len s <= k -> slice_to s k = s.
Proof.
  intros Hk. pose proof (len_nonneg s).
  rewrite slice_to_nonneg by lia.
  apply firstn_all2. unfold len in *. lia.
Qed.

(** Cutting a prefix of [a ++ b] that lies inside [a]. *)
Lemma slice_to_app_l {A} (a b : list A) (k : Z) :
  0 <= k <= len a -> slice_to (a ++ b) k = slice_to a k.
Proof.
  intros Hk. rewrite !slice_to_nonneg by lia.
  rewrite firstn_app.
  replace (Z.to_nat k - List.length a)%nat with 0%nat by (unfold len in *; lia).
  simpl. apply app_nil_r.
Qed.

Lemma slice_to_slice_to {A} (s : list A) (j k : Z) :
  0 <= j <= k -> slice_to (slice_to s k) j = slice_to s j.
Proof.
  intros H. rewrite !slice_to_nonneg by lia.
  rewrite firstn_firstn. f_equal. lia.
Qed.

Lemma starts_with_len (sub s : str) :
  starts_with sub s = true -> len sub <= len s.
Proof.
  revert s. induction sub as [|a sub IH]; intros [|b s] H; simpl in *;
    unfold len in *; simpl; try lia; try discriminate.
  apply andb_prop in H. destruct H as [_ H]. apply IH in H. lia.
Qed.

(** [rfind] answers [-1] or the index of an occurrence that fits. *)
Lemma rfind_from_range (sub s : str) (i : Z) :
  0 <= i ->
  rfind_from sub s i = -1 \/
  (i <= rfind_from sub s i /\ rfind_from sub s i + len sub <= i + len s).
Proof.
  revert i. induction s as [|c s IH]; intros i Hi.
  - simpl. destruct (starts_with sub []) eqn:E; [right | left; reflexivity].
    apply starts_with_len in E. unfold len in *. simpl in *. lia.
  - cbn [rfind_from].
    destruct (IH (i + 1) ltac:(lia)) as [Hr | [Hlo Hhi]].
    + rewrite Hr. change (0 <=? -1) with false. cbv iota.
      destruct (starts_with sub (c :: s)) eqn:E; [right | left; reflexivity].
      apply starts_with_len in E. lia.
    + destruct (0 <=? rfind_from sub s (i + 1)) eqn:E.
      * right. unfold len in *. simpl. lia.
      * apply Z.leb_gt in E. lia.
Qed.

Lemma rfind_range (s sub : str) :
  rfind s sub = -1 \/ (0 <= rfind s sub /\ rfind s sub + len sub <= len s).
Proof.
  unfold rfind. destruct (rfind_from_range sub s 0 ltac:(lia)) as [H | H]; [left | right]; lia.
Qed.

(** ** Text budgeter *)

Lemma len_para_break : len para_break = 2.
Proof. reflexivity. Qed.

Lemma len_TRUNCATION_SUFFIX : len TRUNCATION_SUFFIX = 42.
Proof. reflexivity. Qed.

(** The three ways out of [safe_truncate_with]. *)
Lemma safe_truncate_with_cases (text : str) (max_length : Z) (suffix : str) :
  let cut := rfind (slice_to text (max_length - 50)) para_break in
  (len text <= max_length /\ safe_truncate_with text max_length suffix = text)
  \/ (text = [] /\ safe_truncate_with text max_length suffix = text)
  \/ (max_length < len text /\ max_length / 2 < cut /\
      safe_truncate_with text max_length suffix
      = slice_to text cut ++ para_break ++ suffix)
  \/ (max_length < len text /\ cut <= max_length / 2 /\
      safe_truncate_with text max_length suffix
      = slice_to text max_length ++ suffix).
Proof.
  intros cut. unfold safe_truncate_with. fold cut.
  destruct text as [|c text'] eqn:Et.
  - right. left. split; reflexivity.
  - rewrite <- Et. simpl orb.
    destruct (len text <=? max_length) eqn:E1.
    + left. apply Z.leb_le in E1. split; [assumption | reflexivity].
    + apply Z.leb_gt in E1. right. right.
      destruct (cut >? max_length / 2) eqn:E2.
      * left. rewrite Z.gtb_ltb in E2. apply Z.ltb_lt in E2. auto.
      * right. rewrite Z.gtb_ltb in E2. apply Z.ltb_ge in E2. auto.
Qed.

(** Where [max_length - 50] is a valid index, the result fits the budget. *)
Lemma safe_truncate_with_bound (text : str) (max_length : Z) (suffix : str) :
  50 <= max_length ->
  len (safe_truncate_with text max_length suffix) <= max_length + len suffix.
Proof.
  intros Hn. pose proof (len_nonneg suffix) as Hs.
  destruct (safe_truncate_with_cases text max_length suffix)
    as [[H ->] | [[-> ->] | [[Hlen [Hcut ->]] | [Hlen [_ ->]]]]].
  - lia.
  - unfold len at 1. simpl. lia.
  - destruct (rfind_range (slice_to text (max_length - 50)) para_break) as [E | [Hlo Hhi]].
    + assert (0 <= max_length / 2) by (apply Z.div_pos; lia). lia.
    + rewrite len_slice_to in Hhi by lia. rewrite len_para_break in Hhi.
      rewrite !len_app, len_para_break, len_slice_to by lia. lia.
  - rewrite len_app, len_slice_to by lia. lia.
Qed.

(** X2: where [max_length - 50] is a valid index, truncating twice is
    truncating once. *)
Lemma safe_truncate_idempotent_from_50 (text : str) (max_length : Z) :
  50 <= max_length ->
  safe_truncate (safe_truncate text max_length) max_length
  = safe_truncate text max_length.
Proof.
  intros Hn. unfold safe_truncate.
  destruct (safe_truncate_with_cases text max_length TRUNCATION_SUFFIX)
    as [[H E] | [[Ht E] | [[Hlen [Hcut E]] | [Hlen [Hcut E]]]]];
    rewrite E.
  - exact E.
  - subst text. reflexivity.
  - (* cut at a paragraph break: the result is within the budget *)
    set (cut := rfind (slice_to text (max_length - 50)) para_break) in *.
    destruct (rfind_range (slice_to text (max_length - 50)) para_break) as [E1 | [Hlo Hhi]];
      fold cut in E1 || fold cut in Hlo, Hhi.
    + assert (0 <= max_length / 2) by (apply Z.div_pos; lia). lia.
    + rewrite len_slice_to, len_para_break in Hhi by lia.
      destruct (safe_truncate_with_cases (slice_to text cut ++ para_break ++ TRUNCATION_SUFFIX)
                  max_length TRUNCATION_SUFFIX) as [[_ E2] | [[_ E2] | [[Hl2 _] | [Hl2 _]]]];
        try exact E2.
      * rewrite !len_app, len_para_break, len_TRUNCATION_SUFFIX, len_slice_to in Hl2 by lia. lia.
      * rewrite !len_app, len_para_break, len_TRUNCATION_SUFFIX, len_slice_to in Hl2 by lia. lia.
  - (* hard cut: the second pass sees the same first [max_length] characters *)
    set (cut := rfind (slice_to text (max_length - 50)) para_break) in *.
    assert (Hpre : len (slice_to text max_length) = max_length)
      by (rewrite len_slice_to by lia; lia).
    assert (Hsame : slice_to (slice_to text max_length ++ TRUNCATION_SUFFIX) (max_length - 50)
                    = slice_to text (max_length - 50)).
    { rewrite slice_to_app_l by lia. apply slice_to_slice_to. lia. }
    destruct (safe_truncate_with_cases (slice_to text max_length ++ TRUNCATION_SUFFIX)
                max_length TRUNCATION_SUFFIX) as [[Hl2 _] | [[Hl2 _] | [[_ [Hc2 _]] | [_ [_ E2]]]]].
    + rewrite len_app, len_TRUNCATION_SUFFIX in Hl2. lia.
    + apply app_eq_nil in Hl2. destruct Hl2 as [_ Hl2]. discriminate Hl2.
    + rewrite Hsame in Hc2. fold cut in Hc2. lia.
    + rewrite E2. rewrite slice_to_app_l by lia.
      rewrite slice_to_slice_to by lia. reflexivity.
Qed.

(** ** The definitions on sample inputs *)

Example slice_to_negative :
  slice_to (lit "abcdef") (-2) = lit "abcd" /\ slice_to (lit "abcdef") (-9) = [].
Proof. split; reflexivity. Qed.

Example rfind_last_break :
  rfind (lit "a" ++ para_break ++ lit "b" ++ para_break ++ lit "c") para_break = 4
  /\ rfind (lit "abc") para_break = -1.
Proof. split; reflexivity. Qed.

Example strip_both_ends : strip (lit "  a b " ++ nl) = lit "a b".
Proof. reflexivity. Qed.

Example findall_urls_sample :
  Re.findall_urls
    (lit "1. T" ++ nl ++ lit "   URL: https://example.org/a" ++ nl
     ++ lit "   URL: http://b.org/x?y=1 tail URL: https:// x URL: ftp://no")
  = [lit "https://example.org/a"; lit "http://b.org/x?y=1"].
Proof. reflexivity. Qed.

Example search_title_sample :
  Re.search_title
    (lit "x Title: " ++ nl ++ lit "Title: Example page" ++ nl ++ lit "URL: u")
  = Some (lit "Example page").
Proof. reflexivity. Qed.

Example search_uddg_sample :
  Re.search_uddg (lit "//duckduckgo.com/l/?uddg=https%3A%2F%2Fe.org&rut=1")
  = Some (lit "https%3A%2F%2Fe.org").
Proof. reflexivity. Qed.

Example normalize_sources_sample :
  normalize_sources (lit " BOTH ") = lit "both"
  /\ normalize_sources (lit "news") = lit "both"
  /\ normalize_sources (lit "Academic") = lit "academic".
Proof. repeat split; reflexivity. Qed.

Example clamp_results_sample : clamp_results 5 = 3 /\ clamp_results 2 = 2.
Proof. split; reflexivity. Qed.

(** A web-only research with one hit: one search, one page, one source in
    the summary. *)
Example research_one_hit :
  exists report,
    research Sample.one_hit_search Sample.one_hit_search Sample.page
      (lit "quantum computing") (lit "web") 2 (0%nat, [])
    = (Ok report,
       (2%nat, [CallWebSearch (lit "quantum computing") 2;
                CallFollowLink (lit "https://example.org/a")]))
    /\ contains (lit "SOURCE 1 (web): Example") report = true
    /\ contains (lit "Examined 1 sources from web sources") report = true.
Proof. eexists. repeat split; vm_compute; reflexivity. Qed.

(** C4: [safe_truncate] is not idempotent below a budget of 50: on the
    ten-character text [aaaaa\n\naaa] with [max_length = 9] the first pass
    cuts hard at 9 characters, and the second pass, whose negative index
    [9 - 50] now reaches into the longer text, cuts at the paragraph break
    instead. *)
Theorem safe_truncate_twice_differs :
  safe_truncate Sample.short_text 9
  = lit "aaaaa" ++ para_break ++ lit "aa" ++ TRUNCATION_SUFFIX
  /\ safe_truncate (safe_truncate Sample.short_text 9) 9
     = lit "aaaaa" ++ para_break ++ TRUNCATION_SUFFIX
  /\ safe_truncate (safe_truncate Sample.short_text 9) 9
     <> safe_truncate Sample.short_text 9.
Proof.
  split; [reflexivity | split; [reflexivity | ]].
  intros H. vm_compute in H. discriminate H.
Qed.

(** C5: [safe_truncate] exceeds [max_length + len(suffix)] below a budget
    of 50: on a 72-character text with a paragraph break at index 20 and
    [max_length = 10], the negative index [10 - 50] keeps the first 32
    characters, the break at 20 passes the test [20 > 10 // 2], and the
    result has 20 + 2 + 42 = 64 characters, above 10 + 42 = 52. *)
Theorem safe_truncate_exceeds_budget :
  len Sample.long_text = 72
  /\ len (safe_truncate Sample.long_text 10) = 64
  /\ 10 + len TRUNCATION_SUFFIX = 52
  /\ ~ len (safe_truncate Sample.long_text 10) <= 10 + len TRUNCATION_SUFFIX.
Proof.
  repeat split; try reflexivity.
  intros H. vm_compute in H. apply H. reflexivity.
Qed.

(** A text that is not empty is never truncated to an empty one. *)
Lemma safe_truncate_nonempty (text : str) (max_length : Z) :
  text <> [] -> safe_truncate text max_length <> [].
Proof.
  intros Hne. unfold safe_truncate.
  destruct (safe_truncate_with_cases text max_length TRUNCATION_SUFFIX)
    as [[_ ->] | [[-> _] | [[_ [_ ->]] | [_ [_ ->]]]]]; try assumption; try congruence.
  - intros H. apply app_eq_nil in H. destruct H as [_ H]. discriminate H.
  - intros H. apply app_eq_nil in H. destruct H as [_ H]. discriminate H.
Qed.

(** ** URL interleaving *)

Lemma interleave_nil_r (web_urls : list str) :
  interleave web_urls [] = map tag_web web_urls.
Proof. destruct web_urls; reflexivity. Qed.

Lemma skipn_head {A} (l : list A) (k : nat) :
  match skipn k l with
  | [] => nth_error l k = None /\ skipn (S k) l = []
  | x :: t => nth_error l k = Some x /\ skipn (S k) l = t
  end.
Proof.
  revert k. induction l as [|y l IH]; intros k.
  - destruct k; simpl; auto.
  - destruct k; simpl; [auto | apply IH].
Qed.

(** After [k] rounds, [m] more rounds append the interleaving of the next
    [m] URLs of each list. *)
Lemma interleave_rounds_seq (web_urls academic_urls : list str) (m k : nat)
    (acc : list (str * str)) :
  interleave_rounds (seq k m) web_urls academic_urls acc
  = acc ++ interleave (firstn m (skipn k web_urls)) (firstn m (skipn k academic_urls)).
Proof.
  revert k acc. induction m as [|m IH]; intros k acc.
  - simpl. rewrite app_nil_r. reflexivity.
  - cbn [seq interleave_rounds]. rewrite IH.
    pose proof (skipn_head web_urls k) as Hw.
    pose proof (skipn_head academic_urls k) as Ha.
    destruct (skipn k web_urls) as [|w ws]; destruct Hw as [-> ->];
      destruct (skipn k academic_urls) as [|a acs]; destruct Ha as [-> ->];
      cbn [firstn interleave map];
      rewrite ?firstn_nil, ?interleave_nil_r, <- ?app_assoc; cbn [interleave map app];
      reflexivity.
Qed.

Lemma interleave_rounds_all (web_urls academic_urls : list str) :
  interleave_rounds
    (seq 0 (Nat.max (List.length web_urls) (List.length academic_urls)))
    web_urls academic_urls []
  = interleave web_urls academic_urls.
Proof.
  rewrite interleave_rounds_seq. cbn [skipn app].
  rewrite !firstn_all2 by lia. reflexivity.
Qed.

Lemma combine_urls_both (web_urls academic_urls : list str) (num_results : Z) :
  combine_urls (lit "both") web_urls academic_urls num_results
  = slice_to (interleave web_urls academic_urls) num_results.
Proof.
  unfold combine_urls. change (str_eqb (lit "both") (lit "both")) with true.
  cbv iota. rewrite interleave_rounds_all. reflexivity.
Qed.

(** C1: with [sources == "both"] the combined list is the interleaving of
    the two URL lists, one web URL then one academic URL per round until
    both are exhausted, cut by the slice [[:num_results]]; for web URLs
    [w1, w2, w3], academic URLs [a1, a2] and [num_results = 3] it is
    [(web, w1), (academic, a1), (web, w2)]. *)
Theorem combine_urls_both_interleaves :
  (forall (web_urls academic_urls : list str) (num_results : Z),
      combine_urls (lit "both") web_urls academic_urls num_results
      = slice_to (interleave web_urls academic_urls) num_results)
  /\ (forall w1 w2 w3 a1 a2 : str,
         combine_urls (lit "both") [w1; w2; w3] [a1; a2] 3
         = [(lit "web", w1); (lit "academic", a1); (lit "web", w2)]).
Proof.
  split; [exact combine_urls_both | ].
  intros. rewrite combine_urls_both. reflexivity.
Qed.

(** For a count that is not negative the slice keeps the first
    [num_results] entries, so the combined list never has more. *)
Lemma combine_urls_both_capped (web_urls academic_urls : list str) (num_results : Z) :
  0 <= num_results ->
  combine_urls (lit "both") web_urls academic_urls num_results
  = firstn (Z.to_nat num_results) (interleave web_urls academic_urls)
  /\ len (combine_urls (lit "both") web_urls academic_urls num_results) <= num_results.
Proof.
  intros Hn. rewrite combine_urls_both.
  split; [apply slice_to_nonneg; assumption | ].
  rewrite len_slice_to by assumption. lia.
Qed.

(** ** The orchestrator *)

Lemma follow_calls_app (t1 t2 : list call) :
  follow_calls (t1 ++ t2) = (follow_calls t1 + follow_calls t2)%nat.
Proof. unfold follow_calls. rewrite filter_app, length_app. reflexivity. Qed.

Lemma follow_calls_links (urls : list (str * str)) :
  follow_calls (map (fun u => CallFollowLink (snd u)) urls) = List.length urls.
Proof.
  unfold follow_calls. induction urls as [|u urls IH]; simpl; [reflexivity | ].
  f_equal. exact IH.
Qed.

Section OrchestratorFacts.

Context {W : Type}.
Variable web_search : str -> Z -> M W str.
Variable academic_search : str -> Z -> M W str.
Variable follow_link : str -> M W str.

Local Abbreviation St := (W * list call)%type.

(** What the web step does, by the outcome of the adapter. *)
Lemma collect_web_run (query sources : str) (num_results : Z) (result : str) (s : St) :
  collect_web web_search query sources num_results result s
  = if in_list sources [lit "web"; lit "both"] then
      match web_search query num_results (fst s) with
      | (Ok web_results, w') =>
          (Ok (result ++ lit "WEB SEARCH RESULTS:" ++ nl ++ web_results ++ para_break,
               slice_to (Re.findall_urls web_results) num_results),
           (w', snd s ++ [CallWebSearch query num_results]))
      | (Raise e, w') =>
          (Ok (result ++ lit "WEB SEARCH ERROR: " ++ slice_to e 100 ++ para_break, []),
           (w', snd s ++ [CallWebSearch query num_results]))
      end
    else (Ok (result, []), s).
Proof.
  unfold collect_web. destruct (in_list sources _); [ | reflexivity].
  unfold try_except, bind, await, ret.
  destruct (web_search query num_results (fst s)) as [[t | e] w']; reflexivity.
Qed.

(** What the academic step does, by the outcome of the adapter. *)
Lemma collect_academic_run (query sources : str) (num_results : Z) (result : str) (s : St) :
  collect_academic academic_search query sources num_results result s
  = if in_list sources [lit "academic"; lit "both"] then
      match academic_search query num_results (fst s) with
      | (Ok academic_results, w') =>
          (Ok (result ++ lit "ACADEMIC SEARCH RESULTS:" ++ nl ++ academic_results ++ para_break,
               slice_to (Re.findall_urls academic_results) num_results),
           (w', snd s ++ [CallAcademicSearch query num_results]))
      | (Raise e, w') =>
          (Ok (result ++ lit "ACADEMIC SEARCH ERROR: " ++ slice_to e 100 ++ para_break, []),
           (w', snd s ++ [CallAcademicSearch query num_results]))
      end
    else (Ok (result, []), s).
Proof.
  unfold collect_academic. destruct (in_list sources _); [ | reflexivity].
  unfold try_except, bind, await, ret.
  destruct (academic_search query num_results (fst s)) as [[t | e] w']; reflexivity.
Qed.

(** Each search step ends normally, only appends to the report, and calls
    no link extractor. *)
Lemma collect_web_total (query sources : str) (num_results : Z) (result : str) (s : St) :
  exists more web_urls s',
    collect_web web_search query sources num_results result s
    = (Ok (result ++ more, web_urls), s')
    /\ follow_calls (snd s') = follow_calls (snd s).
Proof.
  rewrite collect_web_run. destruct (in_list sources _).
  - destruct (web_search query num_results (fst s)) as [[t | e] w'];
      eexists _, _, _; (split; [reflexivity | ]); cbn [snd];
      rewrite follow_calls_app; cbn; lia.
  - exists [], [], s. rewrite app_nil_r. split; reflexivity.
Qed.

Lemma collect_academic_total (query sources : str) (num_results : Z) (result : str) (s : St) :
  exists more academic_urls s',
    collect_academic academic_search query sources num_results result s
    = (Ok (result ++ more, academic_urls), s')
    /\ follow_calls (snd s') = follow_calls (snd s).
Proof.
  rewrite collect_academic_run. destruct (in_list sources _).
  - destruct (academic_search query num_results (fst s)) as [[t | e] w'];
      eexists _, _, _; (split; [reflexivity | ]); cbn [snd];
      rewrite follow_calls_app; cbn; lia.
  - exists [], [], s. rewrite app_nil_r. split; reflexivity.
Qed.

Lemma collect_total (query sources : str) (num_results : Z) (s : St) :
  exists more web_urls academic_urls s',
    collect web_search academic_search query sources num_results s
    = (Ok (intro query sources ++ more, web_urls, academic_urls), s')
    /\ follow_calls (snd s') = follow_calls (snd s).
Proof.
  unfold collect, bind.
  destruct (collect_web_total query sources num_results (intro query sources) s)
    as (m1 & wu & s1 & -> & H1).
  destruct (collect_academic_total query sources num_results (intro query sources ++ m1) s1)
    as (m2 & au & s2 & -> & H2).
  exists (m1 ++ m2), wu, au, s2. unfold ret. rewrite <- app_assoc.
  split; [reflexivity | congruence].
Qed.

(** The extraction loop ends normally whatever the extractor does, only
    appends to the report, and calls the extractor once per URL, in order. *)
Lemma follow_all_total (combined_urls : list (str * str)) (i : Z) (result : str) (s : St) :
  exists more s',
    follow_all follow_link i combined_urls result s = (Ok (result ++ more), s')
    /\ snd s' = snd s ++ map (fun u => CallFollowLink (snd u)) combined_urls.
Proof.
  revert i result s. induction combined_urls as [|[source_type url] rest IH]; intros i result s.
  - exists [], s. cbn. unfold ret. rewrite !app_nil_r. split; reflexivity.
  - cbn [follow_all]. unfold bind at 1. unfold try_except, bind, await, ret.
    destruct (follow_link url (fst s)) as [[page | e] w'].
    + match goal with |- context [follow_all _ _ _ ?r ?st] =>
        destruct (IH (i + 1) r st) as (m & s' & -> & Ht) end.
      eexists _, s'. split.
      * rewrite <- !app_assoc. reflexivity.
      * rewrite Ht. cbn [snd map]. rewrite <- app_assoc. reflexivity.
    + match goal with |- context [follow_all _ _ _ ?r ?st] =>
        destruct (IH (i + 1) r st) as (m & s' & -> & Ht) end.
      eexists _, s'. split.
      * rewrite <- !app_assoc. reflexivity.
      * rewrite Ht. cbn [snd map]. rewrite <- app_assoc. reflexivity.
Qed.

(** The body of the outer [try], by the URL lists the searches gave. *)
Lemma research_body_run (query sources : str) (num_results : Z) (s s1 : St)
    (result : str) (web_urls academic_urls : list str) :
  collect web_search academic_search query sources num_results s
  = (Ok (result, web_urls, academic_urls), s1) ->
  research_body web_search academic_search follow_link query sources num_results s
  = match web_urls, academic_urls with
    | [], [] => (Ok (result ++ NO_RESULTS), s1)
    | _, _ =>
        let combined_urls := combine_urls sources web_urls academic_urls num_results in
        match follow_all follow_link 1 combined_urls
                (result ++ lit "DETAILED CONTENT FROM TOP " ++ str_of_Z (len combined_urls)
                 ++ lit " SOURCES:" ++ para_break) s1 with
        | (Ok body, s2) =>
            (Ok (finish body (summary_of query sources combined_urls)), s2)
        | (Raise e, s2) => (Raise e, s2)
        end
    end.
Proof.
  intros Hc. unfold research_body. unfold bind at 1. rewrite Hc.
  destruct web_urls, academic_urls; reflexivity.
Qed.

Lemma research_body_total (query sources : str) (num_results : Z) (s : St) :
  exists report s',
    research_body web_search academic_search follow_link query sources num_results s
    = (Ok report, s').
Proof.
  destruct (collect_total query sources num_results s) as (m & wu & au & s1 & Hc & _).
  rewrite (research_body_run _ _ _ _ _ _ _ _ Hc).
  set (result := intro query sources ++ m).
  assert (Hgo : forall combined_urls r,
             exists report s',
               match follow_all follow_link 1 combined_urls r s1 with
               | (Ok body, s2) =>
                   (Ok (finish body (summary_of query sources combined_urls)), s2)
               | (Raise e, s2) => (Raise e, s2)
               end = (Ok report, s')).
  { intros cu r. destruct (follow_all_total cu 1 r s1) as (m' & s2 & -> & _).
    eexists _, _. reflexivity. }
  destruct wu, au; cbv zeta; [eexists _, _; reflexivity | apply Hgo ..].
Qed.

Lemma top_level_ok (body : M St str) (s s' : St) (report : str) :
  body s = (Ok report, s') -> top_level body s = (Ok report, s').
Proof. intros H. unfold top_level, try_except. rewrite H. reflexivity. Qed.

Lemma top_level_raise (body : M St str) (s s' : St) (e : str) :
  body s = (Raise e, s') ->
  top_level body s = (Ok (lit "Research error: " ++ slice_to e 200), s').
Proof. intros H. unfold top_level, try_except. rewrite H. reflexivity. Qed.

End OrchestratorFacts.

(** C2: whatever the adapters and the link extractor do, exceptions
    included, [deep_research] ends with a string and raises nothing; an
    error that reaches the outer handler becomes ["Research error: "]
    followed by the first 200 characters of its message. *)
Theorem research_never_raises {W : Type}
    (web_search academic_search : str -> Z -> M W str) (follow_link : str -> M W str)
    (query sources : str) (num_results : Z) (s : W * list call) :
  (exists report s',
      research web_search academic_search follow_link query sources num_results s
      = (Ok report, s'))
  /\ (forall (body : M (W * list call) str) (e : str) (s' : W * list call),
         body s = (Raise e, s') ->
         top_level body s = (Ok (lit "Research error: " ++ slice_to e 200), s')).
Proof.
  split.
  - unfold research.
    destruct (research_body_total web_search academic_search follow_link
                query (normalize_sources sources) (clamp_results num_results) s)
      as (report & s' & H).
    exists report, s'. apply top_level_ok. exact H.
  - intros body e s' H. apply top_level_raise. exact H.
Qed.

Lemma research_never_raises_witness :
  top_level (raise (lit "boom")) (0%nat, [])
  = (Ok (lit "Research error: boom"), (0%nat, [])).
Proof.
  apply (proj2 (research_never_raises Sample.failing_search Sample.failing_search
                  Sample.page (lit "q") (lit "both") 2 (0%nat, []))
           (raise (lit "boom")) (lit "boom") (0%nat, [])).
  reflexivity.
Defined.

(** C9: when the web and the academic URL lists taken from the adapters'
    text are both empty, [deep_research] returns the report built so far
    followed by the "No valid search results" sentence, and the link
    extractor is not called; in every other case it runs the extraction
    loop over the combined list, one call per URL, and returns the budgeted
    body followed by the summary. *)
Theorem early_return_iff_no_urls {W : Type}
    (web_search academic_search : str -> Z -> M W str) (follow_link : str -> M W str)
    (query sources : str) (num_results : Z) (s s1 : W * list call)
    (result : str) (web_urls academic_urls : list str) :
  collect web_search academic_search query
    (normalize_sources sources) (clamp_results num_results) s
  = (Ok (result, web_urls, academic_urls), s1) ->
  (web_urls = [] /\ academic_urls = [] ->
   research web_search academic_search follow_link query sources num_results s
   = (Ok (result ++ NO_RESULTS), s1)
   /\ follow_calls (snd s1) = follow_calls (snd s))
  /\ (~ (web_urls = [] /\ academic_urls = []) ->
      let combined_urls :=
        combine_urls (normalize_sources sources) web_urls academic_urls
          (clamp_results num_results) in
      exists body s2,
        research web_search academic_search follow_link query sources num_results s
        = (Ok (finish body (summary_of query (normalize_sources sources) combined_urls)), s2)
        /\ follow_calls (snd s2)
           = (follow_calls (snd s) + List.length combined_urls)%nat).
Proof.
  intros Hc.
  assert (Hf : follow_calls (snd s1) = follow_calls (snd s)).
  { destruct (collect_total web_search academic_search query
                (normalize_sources sources) (clamp_results num_results) s)
      as (m & wu & au & s1' & Hc' & Hf).
    rewrite Hc in Hc'. inversion Hc'; subst. exact Hf. }
  split.
  - intros [-> ->]. split; [ | exact Hf].
    unfold research. apply top_level_ok.
    rewrite (research_body_run _ _ _ _ _ _ _ _ _ _ _ Hc). reflexivity.
  - intros Hne combined_urls.
    match goal with |- exists body s2, _ = (Ok (finish body ?sm), s2) /\ _ =>
      set (summary := sm) end.
    destruct (follow_all_total follow_link combined_urls 1
                (result ++ lit "DETAILED CONTENT FROM TOP " ++ str_of_Z (len combined_urls)
                 ++ lit " SOURCES:" ++ para_break) s1) as (m & s2 & Hfa & Ht).
    eexists _, s2. split.
    + unfold research. apply top_level_ok.
      rewrite (research_body_run _ _ _ _ _ _ _ _ _ _ _ Hc).
      destruct web_urls, academic_urls;
        [exfalso; apply Hne; split; reflexivity | | | ];
        cbv zeta; fold combined_urls; rewrite Hfa; reflexivity.
    + rewrite Ht, follow_calls_app, follow_calls_links. congruence.
Qed.

(** A web-only research whose search finds nothing returns after one
    search call. *)
Lemma early_return_iff_no_urls_witness :
  research Sample.empty_search Sample.empty_search Sample.page
    (lit "q") (lit "web") 2 (0%nat, [])
  = (Ok ((lit "Research Query: q" ++ para_break
          ++ lit "Searching web sources..." ++ para_break
          ++ lit "WEB SEARCH RESULTS:" ++ nl ++ lit "No web results found for: q"
          ++ para_break) ++ NO_RESULTS),
     (1%nat, [CallWebSearch (lit "q") 2])).
Proof.
  refine (proj1 (proj1 (early_return_iff_no_urls Sample.empty_search Sample.empty_search
                   Sample.page (lit "q") (lit "web") 2 (0%nat, [])
                   (1%nat, [CallWebSearch (lit "q") 2]) _ [] [] _) _)).
  - vm_compute. reflexivity.
  - split; reflexivity.
Defined.

(** ** Substrings *)

Lemma ascii_eqb_refl (c : ascii) : ascii_eqb c c = true.
Proof. apply Ascii.eqb_refl. Qed.

Lemma starts_with_app (sub rest : str) : starts_with sub (sub ++ rest) = true.
Proof.
  induction sub as [|c sub IH]; [reflexivity | ].
  simpl. rewrite ascii_eqb_refl. exact IH.
Qed.

Lemma contains_here (sub s : str) : starts_with sub s = true -> contains sub s = true.
Proof. intros H. destruct s; simpl in *; rewrite H; reflexivity. Qed.

Lemma contains_app_r (sub before s : str) :
  contains sub s = true -> contains sub (before ++ s) = true.
Proof.
  intros H. induction before as [|c before IH]; [exact H | ].
  cbn [app contains]. rewrite IH. apply orb_true_r.
Qed.

Lemma contains_middle (sub before rest : str) :
  contains sub (before ++ sub ++ rest) = true.
Proof. apply contains_app_r, contains_here, starts_with_app. Qed.

(** ** The adapters and the link extractor *)

Section ProgramFacts.

Context {W : Type}.
Variable http_get : str -> list (str * str) -> M W Response.
Variable quote_plus : str -> str.
Variable unquote : str -> str.
Variable status_error_message : Response -> str.
Variable BeautifulSoup : str -> outcome Soup.
Variable response_json_data : Response -> outcome (field (list Paper)).

(** A response that [raise_for_status] rejects makes [_web_search] raise. *)
Lemma web_search_status_error (query : str) (num_results : Z) (w w' : W)
    (response : Response) :
  http_get (web_request_url quote_plus query) html_headers w = (Ok response, w') ->
  is_success response = false ->
  _web_search http_get quote_plus unquote status_error_message BeautifulSoup
    query num_results w
  = (Raise (status_error_message response), w').
Proof.
  intros Hget Hs. unfold _web_search, try_except, bind, lift, raise.
  unfold web_request_url, html_headers in Hget. rewrite Hget.
  unfold raise_for_status. rewrite Hs. reflexivity.
Qed.

(** A response that is not a 200 makes [_academic_search] return a text. *)
Lemma academic_search_status_text (query : str) (num_results : Z) (w w' : W)
    (response : Response) :
  http_get (academic_request_url quote_plus query num_results) json_headers w = (Ok response, w') ->
  status_code response <> 200 ->
  _academic_search http_get quote_plus response_json_data query num_results w
  = (Ok (lit "Academic search error: API returned status "
         ++ str_of_Z (status_code response)), w').
Proof.
  intros Hget Hs. unfold _academic_search, try_except, bind, ret.
  unfold academic_request_url, json_headers in Hget. rewrite Hget.
  destruct (status_code response =? 200) eqn:E; [apply Z.eqb_eq in E; contradiction | ].
  reflexivity.
Qed.

End ProgramFacts.

Section WebFailure.

Context {W : Type}.
Variable http_get : str -> list (str * str) -> M W Response.
Variable quote_plus : str -> str.
Variable unquote : str -> str.
Variable status_error_message : Response -> str.
Variable BeautifulSoup : str -> outcome Soup.
Variable response_json_data : Response -> outcome (field (list Paper)).

Local Abbreviation the_web_search :=
  (_web_search http_get quote_plus unquote status_error_message BeautifulSoup).
Local Abbreviation the_academic_search :=
  (_academic_search http_get quote_plus response_json_data).
Local Abbreviation the_follow_link := (_follow_link http_get BeautifulSoup).

(** C6, as the code has it: a response of the web search endpoint whose
    status is outside 200-299 makes [_web_search] raise; the orchestrator
    catches the error on its own: the web URL list is left empty and the
    line ["WEB SEARCH ERROR: "] with the first 100 characters of the message
    follows the introduction of the report.  [deep_research] then returns a
    report that contains that line, unless the body went over its budget
    and was cut; with [sources == "web"] it always contains the line. *)
Theorem web_failure_is_reported (query sources : str) (num_results : Z)
    (w w' : W) (trace : list call) (response : Response) :
  let sources' := normalize_sources sources in
  let n := clamp_results num_results in
  let e := status_error_message response in
  in_list sources' [lit "web"; lit "both"] = true ->
  http_get (web_request_url quote_plus query) html_headers w = (Ok response, w') ->
  is_success response = false ->
  the_web_search query n w = (Raise e, w')
  /\ collect_web the_web_search query sources' n (intro query sources') (w, trace)
     = (Ok (intro query sources' ++ web_error_line e, []),
        (w', trace ++ [CallWebSearch query n]))
  /\ exists report s',
       deep_research http_get quote_plus unquote status_error_message BeautifulSoup
         response_json_data query sources num_results (w, trace)
       = (Ok report, s')
       /\ (contains (web_error_line e) report = true
           \/ exists body summary,
                budget summary < len body
                /\ report = safe_truncate body (budget summary) ++ summary)
       /\ (sources' = lit "web" -> contains (web_error_line e) report = true).
Proof.
  intros sources' n e Hin Hget Hs.
  assert (Hraise : the_web_search query n w = (Raise e, w'))
    by (apply web_search_status_error; assumption).
  assert (Hweb : collect_web the_web_search query sources' n (intro query sources') (w, trace)
                 = (Ok (intro query sources' ++ web_error_line e, []),
                    (w', trace ++ [CallWebSearch query n]))).
  { rewrite collect_web_run, Hin. cbn [fst snd]. rewrite Hraise. reflexivity. }
  split; [exact Hraise | split; [exact Hweb | ]].
  destruct (collect_academic_total the_academic_search query sources' n
              (intro query sources' ++ web_error_line e)
              (w', trace ++ [CallWebSearch query n])) as (m & au & s1 & Hac & _).
  assert (Hc : collect the_web_search the_academic_search query sources' n (w, trace)
               = (Ok ((intro query sources' ++ web_error_line e) ++ m, [], au), s1)).
  { unfold collect. unfold bind at 1. rewrite Hweb. unfold bind. rewrite Hac. reflexivity. }
  unfold deep_research, research. fold sources' n.
  destruct au as [|a au].
  - (* no URL at all: the early return *)
    exists (((intro query sources' ++ web_error_line e) ++ m) ++ NO_RESULTS), s1.
    split; [ | split].
    + apply top_level_ok.
      rewrite (research_body_run _ _ _ _ _ _ _ _ _ _ _ Hc). reflexivity.
    + left. rewrite <- !app_assoc. apply contains_middle.
    + intros _. rewrite <- !app_assoc. apply contains_middle.
  - (* academic URLs: the extraction loop and the budgeter *)
    set (combined_urls := combine_urls sources' [] (a :: au) n).
    destruct (follow_all_total the_follow_link combined_urls 1
                (((intro query sources' ++ web_error_line e) ++ m)
                 ++ lit "DETAILED CONTENT FROM TOP " ++ str_of_Z (len combined_urls)
                 ++ lit " SOURCES:" ++ para_break) s1) as (m' & s2 & Hfa & _).
    eexists _, s2. split; [ | split].
    + apply top_level_ok.
      rewrite (research_body_run _ _ _ _ _ _ _ _ _ _ _ Hc).
      cbv zeta. fold combined_urls. rewrite Hfa. reflexivity.
    + unfold finish. fold (budget (summary_of query sources' combined_urls)).
      match goal with |- context [len ?b >? _] => set (body := b) end.
      destruct (len body >? budget (summary_of query sources' combined_urls)) eqn:E.
      * right. exists body, (summary_of query sources' combined_urls).
        rewrite Z.gtb_ltb in E. apply Z.ltb_lt in E. split; [exact E | reflexivity].
      * left. subst body. rewrite <- !app_assoc. apply contains_middle.
    + intros Hweb_only. exfalso.
      rewrite collect_academic_run in Hac. rewrite Hweb_only in Hac.
      change (in_list (lit "web") [lit "academic"; lit "both"]) with false in Hac.
      inversion Hac.
Qed.

End WebFailure.

Lemma web_failure_is_reported_witness :
  exists report s',
    deep_research (Sample.constant_get 503 (lit "text/html") (lit "Service Unavailable"))
      Sample.plain_quote Sample.plain_quote Sample.status_message
      Sample.text_only_parser Sample.no_data
      (lit "q") (lit "Web") 2 (0%nat, [])
    = (Ok report, s')
    /\ contains (web_error_line (lit "HTTP status 503")) report = true.
Proof.
  destruct (web_failure_is_reported
              (Sample.constant_get 503 (lit "text/html") (lit "Service Unavailable"))
              Sample.plain_quote Sample.plain_quote Sample.status_message
              Sample.text_only_parser Sample.no_data
              (lit "q") (lit "Web") 2 0%nat 1%nat []
              {| status_code := 503;
                 headers := [(lit "Content-Type", lit "text/html")];
                 text := lit "Service Unavailable" |}
              eq_refl eq_refl eq_refl)
    as (_ & _ & report & s' & Hrun & _ & Hweb).
  exists report, s'. split; [exact Hrun | ].
  apply Hweb. reflexivity.
Defined.

(** C6, as stated, fails on a status such as 202: it is not 200, yet
    [raise_for_status] accepts it, [_web_search] returns a text, and the
    report has no ["WEB SEARCH ERROR:"] line. *)
Lemma accepted_status_is_no_error :
  let get := Sample.constant_get 202 (lit "text/html") (lit "Accepted") in
  202 <> 200
  /\ _web_search get Sample.plain_quote Sample.plain_quote Sample.status_message
       Sample.text_only_parser (lit "q") 2 0%nat
     = (Ok (lit "No web results found for: q"), 1%nat)
  /\ exists report s',
       deep_research get Sample.plain_quote Sample.plain_quote Sample.status_message
         Sample.text_only_parser Sample.no_data (lit "q") (lit "web") 2 (0%nat, [])
       = (Ok report, s')
       /\ contains (lit "WEB SEARCH ERROR:") report = false.
Proof.
  intros get. split; [discriminate | split; [reflexivity | ]].
  eexists _, _. split; [vm_compute; reflexivity | vm_compute; reflexivity].
Qed.

(** The budget can cut the line off: with a query of 7000 characters, a
    failing web search and an academic search that finds a page, the body
    is cut inside the query and the report has no error line. *)
Lemma web_error_line_can_be_cut :
  exists report s',
    research Sample.failing_search Sample.one_hit_search Sample.page
      Sample.long_query (lit "both") 2 (0%nat, [])
    = (Ok report, s')
    /\ contains (lit "WEB SEARCH ERROR:") report = false.
Proof. eexists _, _. split; vm_compute; reflexivity. Qed.

(** C7: a response of the academic endpoint whose status is not 200 makes
    [_academic_search] return, not raise, the text
    ["Academic search error: API returned status "] followed by the status
    code in decimal, so the text contains the literal code. *)
Theorem academic_failure_is_text {W : Type}
    (http_get : str -> list (str * str) -> M W Response)
    (quote_plus : str -> str)
    (response_json_data : Response -> outcome (field (list Paper)))
    (query : str) (num_results : Z) (w w' : W) (response : Response) :
  http_get (academic_request_url quote_plus query num_results) json_headers w
  = (Ok response, w') ->
  status_code response <> 200 ->
  exists report,
    _academic_search http_get quote_plus response_json_data query num_results w
    = (Ok report, w')
    /\ report = lit "Academic search error: API returned status "
                ++ str_of_Z (status_code response)
    /\ contains (str_of_Z (status_code response)) report = true.
Proof.
  intros Hget Hs. eexists. split; [ | split; [reflexivity | ]].
  - apply academic_search_status_text; assumption.
  - rewrite <- (app_nil_r (str_of_Z (status_code response))) at 2.
    apply contains_middle.
Qed.

Lemma academic_failure_is_text_witness :
  _academic_search (Sample.constant_get 429 (lit "application/json") (lit "{}"))
    Sample.plain_quote Sample.no_data (lit "q") 2 0%nat
  = (Ok (lit "Academic search error: API returned status 429"), 1%nat).
Proof.
  destruct (academic_failure_is_text
              (Sample.constant_get 429 (lit "application/json") (lit "{}"))
              Sample.plain_quote Sample.no_data (lit "q") 2 0%nat 1%nat
              {| status_code := 429;
                 headers := [(lit "Content-Type", lit "application/json")];
                 text := lit "{}" |}
              eq_refl ltac:(discriminate)) as (report & Hrun & -> & _).
  exact Hrun.
Defined.

(** ** Author text *)

Lemma author_names_named (authors : list Author) :
  flat_map (fun author =>
              match author_name author with
              | Val ((_ :: _) as name) => [name]
              | _ => []
              end) authors
  = named authors.
Proof.
  unfold named. induction authors as [|[name] authors IH]; [reflexivity | ].
  cbn [flat_map filter]. unfold has_name at 1. cbn [author_name].
  destruct name as [ | | [|c name]]; cbn [app map]; rewrite IH; reflexivity.
Qed.

Lemma author_text_unfold (authors : list Author) :
  author_text authors
  = match firstn 3 (named authors)
          ++ (if len authors >? 3 then [lit "et al."] else []) with
    | [] => lit "Unknown authors"
    | names => join (lit ", ") names
    end.
Proof.
  unfold author_text. rewrite author_names_named.
  rewrite slice_to_nonneg by lia. change (Z.to_nat 3) with 3%nat.
  destruct (len authors >? 3).
  - destruct (firstn 3 (named authors)); reflexivity.
  - rewrite app_nil_r. destruct (firstn 3 (named authors)); reflexivity.
Qed.

(** C8: the author text is the first three non-empty names joined with
    [", "]; ["et al."] is appended, as one more joined entry, exactly when
    the raw author list has more than three entries, named or not; with no
    name and no suffix the text is ["Unknown authors"]. *)
Theorem author_text_display (authors : list Author) :
  let names := firstn 3 (named authors) in
  (len authors > 3 ->
   author_text authors = join (lit ", ") (names ++ [lit "et al."]))
  /\ (len authors <= 3 -> names <> [] ->
      author_text authors = join (lit ", ") names)
  /\ (len authors <= 3 -> names = [] ->
      author_text authors = lit "Unknown authors").
Proof.
  intros names. rewrite author_text_unfold. fold names.
  destruct (len authors >? 3) eqn:E;
    [rewrite Z.gtb_ltb in E; apply Z.ltb_lt in E
    | rewrite Z.gtb_ltb in E; apply Z.ltb_ge in E].
  - split; [ | split]; try (intros; lia).
    intros _. destruct names; reflexivity.
  - rewrite app_nil_r. split; [intros; lia | split].
    + intros _ Hne. destruct names; [contradiction | reflexivity].
    + intros _ ->. reflexivity.
Qed.

Lemma author_text_display_witness :
  author_text Sample.four_authors = lit "Ada, Bob, Cy, et al.".
Proof.
  apply (proj1 (author_text_display Sample.four_authors)).
  reflexivity.
Defined.

(** ** The link extractor *)

(** C10: [_follow_link] never reads the status of the response.  For any
    response, whatever its status code, whose content type does not name a
    PDF and whose body parses, it returns the usual block of title, URL,
    description and content; it raises only when the request itself or the
    parser raises. *)
Theorem follow_link_ignores_status {W : Type}
    (http_get : str -> list (str * str) -> M W Response)
    (BeautifulSoup : str -> outcome Soup) (url : str) (w : W) :
  (forall (response : Response) (soup : Soup) (w' : W),
      http_get url html_headers w = (Ok response, w') ->
      contains (lit "application/pdf")
        (lower (headers_get (headers response) (lit "content-type") [])) = false ->
      BeautifulSoup (slice_to (text response) 100000) = Ok soup ->
      _follow_link http_get BeautifulSoup url w
      = (Ok (page_block url (slice_to (page_title soup) 100)
               (slice_to (page_description soup) 200)
               (join para_break (content_of soup))), w'))
  /\ (forall (e : str) (w' : W),
         _follow_link http_get BeautifulSoup url w = (Raise e, w') ->
         http_get url html_headers w = (Raise e, w')
         \/ exists response,
              http_get url html_headers w = (Ok response, w')
              /\ BeautifulSoup (slice_to (text response) 100000) = Raise e).
Proof.
  split.
  - intros response soup w' Hget Hpdf Hsoup.
    unfold _follow_link, try_except, bind, lift, ret.
    unfold html_headers in Hget. rewrite Hget, Hpdf, Hsoup.
    reflexivity.
  - intros e w'. unfold _follow_link, try_except, bind, lift, ret, raise.
    fold html_headers.
    destruct (http_get url html_headers w) as [[response | e0] w0].
    + destruct (contains _ _); [discriminate | ].
      destruct (BeautifulSoup (slice_to (text response) 100000)) as [soup | e1] eqn:Hs;
        [discriminate | ].
      intros H. inversion H; subst. right. exists response. split; reflexivity || exact Hs.
    + intros H. inversion H; subst. left. reflexivity.
Qed.

(** A 404 page is read like any other page. *)
Lemma follow_link_ignores_status_witness :
  _follow_link
    (Sample.constant_get 404 (lit "text/html; charset=utf-8") (lit "Not Found"))
    Sample.text_only_parser (lit "https://example.org/missing") 0%nat
  = (Ok (page_block (lit "https://example.org/missing") (lit "No title")
           (lit "No description available") (lit "Not Found")), 1%nat).
Proof.
  exact (proj1 (follow_link_ignores_status
                     (Sample.constant_get 404 (lit "text/html; charset=utf-8")
                        (lit "Not Found"))
                     Sample.text_only_parser (lit "https://example.org/missing") 0%nat)
              {| status_code := 404;
                 headers := [(lit "Content-Type", lit "text/html; charset=utf-8")];
                 text := lit "Not Found" |}
              {| select_result := [];
                 soup_title := None;
                 soup_meta_description := None;
                 soup_elements := [];
                 soup_text := lit "Not Found" |}
              1%nat eq_refl eq_refl eq_refl).
Defined.

(** ** The excerpt cascade *)

(** One scan of the cascade keeps what was collected before it and adds
    the fragments of the elements it looks at. *)
Lemma scan_texts_from (limit min_len cap : Z) (elements : list str) (i : Z)
    (content_texts : list str) :
  0 <= min_len -> 0 <= i ->
  scan_texts limit min_len cap i elements content_texts
  = content_texts
    ++ map (fun t => slice_to t cap)
         (filter (fun t => len t >? min_len)
            (map strip (firstn (Z.to_nat (limit - i)) elements))).
Proof.
  intros Hmin. revert i content_texts.
  induction elements as [|elem rest IH]; intros i acc Hi.
  - cbn. rewrite firstn_nil. cbn. rewrite app_nil_r. reflexivity.
  - cbn [scan_texts]. destruct (i >=? limit) eqn:E.
    + rewrite Z.geb_leb in E. apply Z.leb_le in E.
      replace (Z.to_nat (limit - i)) with 0%nat by lia.
      cbn. rewrite app_nil_r. reflexivity.
    + rewrite Z.geb_leb in E. apply Z.leb_gt in E.
      replace (Z.to_nat (limit - i)) with (S (Z.to_nat (limit - (i + 1)))) by lia.
      rewrite IH by lia. cbn [firstn map filter].
      destruct (strip elem) as [|c text'] eqn:Es.
      * replace (len (@nil ascii) >? min_len) with false; [reflexivity | ].
        symmetry. rewrite Z.gtb_ltb. apply Z.ltb_ge. cbn. exact Hmin.
      * destruct (len (c :: text') >? min_len); [ | reflexivity].
        cbn [map]. rewrite <- app_assoc. reflexivity.
Qed.

Lemma scan_texts_fragments (limit min_len cap : Z) (elements content_texts : list str) :
  0 <= min_len -> 0 <= limit ->
  scan_texts limit min_len cap 0 elements content_texts
  = content_texts ++ fragments limit min_len cap elements.
Proof.
  intros Hmin Hlimit. rewrite scan_texts_from by lia.
  unfold fragments. rewrite slice_to_nonneg by assumption.
  rewrite Z.sub_0_r. reflexivity.
Qed.

(** The cascade, by its two scans. *)
Lemma content_of_unfold (soup : Soup) :
  let tier1 := fragments 5 15 300 (find_all soup [lit "p"]) in
  let tier2 := fragments 8 10 200 (find_all soup [lit "h1"; lit "h2"; lit "h3"; lit "p"]) in
  content_of soup
  = match (if len tier1 <? 2 then tier1 ++ tier2 else tier1) with
    | [] => whole_text soup
    | content_texts => content_texts
    end.
Proof.
  intros tier1 tier2. unfold content_of.
  rewrite (scan_texts_fragments 5 15 300) by lia. cbn [app]. fold tier1.
  destruct (len tier1 <? 2).
  - rewrite (scan_texts_fragments 8 10 200) by lia. fold tier2.
    destruct (tier1 ++ tier2); reflexivity.
  - destruct tier1; reflexivity.
Qed.

(** C3, as the code has it: when the first rule (those of the first 5
    paragraph elements whose trimmed text is longer than 15 characters, cut
    to 300) gives fewer than 2 fragments, the fragments of the second scan
    (those of the first 8 h1-h3 and paragraph elements whose trimmed text
    is longer than 10 characters, cut to 200) are added after the fragment
    the first rule kept, if any; the whole-text fallback is used only when
    both give nothing.  A page whose paragraph scan finds nothing and whose
    combined scan finds three headings, each with a trimmed text longer
    than 10 characters, gives the three heading fragments. *)
Theorem excerpt_second_tier_appends (soup : Soup) :
  let tier1 := fragments 5 15 300 (find_all soup [lit "p"]) in
  let tier2 := fragments 8 10 200 (find_all soup [lit "h1"; lit "h2"; lit "h3"; lit "p"]) in
  (len tier1 < 2 -> tier1 ++ tier2 <> [] -> content_of soup = tier1 ++ tier2)
  /\ (len tier1 < 2 -> tier1 ++ tier2 = [] -> content_of soup = whole_text soup)
  /\ (forall h1 h2 h3 : str,
         find_all soup [lit "p"] = [] ->
         find_all soup [lit "h1"; lit "h2"; lit "h3"; lit "p"] = [h1; h2; h3] ->
         len (strip h1) > 10 -> len (strip h2) > 10 -> len (strip h3) > 10 ->
         content_of soup
         = [slice_to (strip h1) 200; slice_to (strip h2) 200; slice_to (strip h3) 200]).
Proof.
  intros tier1 tier2. pose proof (content_of_unfold soup) as Hc. cbv zeta in Hc.
  fold tier1 tier2 in Hc. split; [ | split].
  - intros Hlt Hne. rewrite Hc.
    destruct (len tier1 <? 2) eqn:E; [ | apply Z.ltb_ge in E; lia].
    destruct (tier1 ++ tier2); [contradiction | reflexivity].
  - intros Hlt He. rewrite Hc.
    destruct (len tier1 <? 2) eqn:E; [ | apply Z.ltb_ge in E; lia].
    rewrite He. reflexivity.
  - intros h1 h2 h3 Hp Hh L1 L2 L3. rewrite Hc. subst tier1 tier2.
    rewrite Hp, Hh. change (fragments 5 15 300 []) with (@nil str).
    change (len (@nil str) <? 2) with true. cbv iota. cbn [app].
    unfold fragments. rewrite slice_to_all by (cbn; lia).
    assert (G : forall t : str, len t > 10 -> (len t >? 10) = true)
      by (intros t Ht; rewrite Z.gtb_ltb; apply Z.ltb_lt; lia).
    cbn [map filter].
    rewrite (G _ L1), (G _ L2), (G _ L3). reflexivity.
Qed.

Lemma excerpt_second_tier_appends_witness :
  content_of Sample.three_headings
  = [lit "First heading"; lit "Second heading"; lit "Third heading"].
Proof.
  apply (proj2 (proj2 (excerpt_second_tier_appends Sample.three_headings))
           (lit "First heading") (lit "Second heading") (lit "Third heading"));
    reflexivity.
Defined.

(** C3, as stated, fails on a page of one paragraph: the first rule keeps
    it, the second scan finds it again, and the excerpt holds it twice,
    which is not what the second scan alone gives. *)
Lemma excerpt_mixes_both_tiers :
  let tier1 := fragments 5 15 300 (find_all Sample.one_paragraph [lit "p"]) in
  let tier2 :=
    fragments 8 10 200
      (find_all Sample.one_paragraph [lit "h1"; lit "h2"; lit "h3"; lit "p"]) in
  len tier1 < 2
  /\ tier2 = [lit "sixteen letters!"]
  /\ content_of Sample.one_paragraph = [lit "sixteen letters!"; lit "sixteen letters!"]
  /\ content_of Sample.one_paragraph <> tier2.
Proof.
  intros tier1 tier2.
  split; [reflexivity | split; [reflexivity | split; [reflexivity | ]]].
  intros H. vm_compute in H. discriminate H.
Qed.

(** With eight paragraphs that do not qualify before them, three headings
    are out of the reach of the second scan and the whole text is used. *)
Lemma late_headings_fall_back :
  fragments 5 15 300 (find_all Sample.late_headings [lit "p"]) = []
  /\ content_of Sample.late_headings = whole_text Sample.late_headings.
Proof. split; reflexivity. Qed.

(** * Further properties *)

(** ** Text budgeter *)

Lemma starts_with_eq (sub s : str) :
  starts_with sub s = true -> exists rest, s = sub ++ rest.
Proof.
  revert s. induction sub as [|a sub IH]; intros s H.
  - exists s. reflexivity.
  - destruct s as [|b s]; [discriminate | ]. cbn in H.
    apply andb_prop in H. destruct H as [Hab H].
    apply Ascii.eqb_eq in Hab. subst b.
    destruct (IH s H) as [rest ->]. exists rest. reflexivity.
Qed.

(** A non-negative answer of [rfind] is the index of an occurrence. *)
Lemma rfind_from_occurs (sub s : str) (i : Z) :
  0 <= i -> 0 <= rfind_from sub s i ->
  starts_with sub (skipn (Z.to_nat (rfind_from sub s i - i)) s) = true.
Proof.
  revert i. induction s as [|c s IH]; intros i Hi Hr.
  - cbn in *. destruct sub; [reflexivity | ]. cbn in Hr. lia.
  - cbn [rfind_from] in *.
    destruct (rfind_from_range sub s (i + 1) ltac:(lia)) as [E | [Hlo Hhi]].
    + rewrite E in *. change (0 <=? -1) with false in *. cbv iota in *.
      destruct (starts_with sub (c :: s)) eqn:Es; [ | lia].
      rewrite Z.sub_diag. exact Es.
    + destruct (0 <=? rfind_from sub s (i + 1)) eqn:E0; [ | apply Z.leb_gt in E0; lia].
      replace (Z.to_nat (rfind_from sub s (i + 1) - i))
        with (S (Z.to_nat (rfind_from sub s (i + 1) - (i + 1)))) by lia.
      cbn [skipn]. apply IH; lia.
Qed.

Lemma rfind_occurs (s sub : str) :
  0 <= rfind s sub ->
  exists rest, s = firstn (Z.to_nat (rfind s sub)) s ++ sub ++ rest.
Proof.
  intros H. unfold rfind in *.
  pose proof (rfind_from_occurs sub s 0 ltac:(lia) H) as Ho.
  rewrite Z.sub_0_r in Ho. apply starts_with_eq in Ho. destruct Ho as [rest Ho].
  exists rest. rewrite <- Ho. symmetry. apply firstn_skipn.
Qed.

(** X1: with a budget of at least 50 the result of [safe_truncate] has at
    most [max_length] characters plus the 42 of the truncation marker. *)
Theorem safe_truncate_within_budget (text : str) (max_length : Z) :
  50 <= max_length ->
  len (safe_truncate text max_length) <= max_length + 42.
Proof.
  intros H. rewrite <- len_TRUNCATION_SUFFIX. apply safe_truncate_with_bound. exact H.
Qed.

Lemma safe_truncate_within_budget_witness :
  len (safe_truncate Sample2.one_block 100) <= 100 + 42.
Proof. apply safe_truncate_within_budget. lia. Defined.

Lemma safe_truncate_idempotent_from_50_witness :
  safe_truncate (safe_truncate Sample2.two_paragraphs 115) 115
  = safe_truncate Sample2.two_paragraphs 115.
Proof. apply safe_truncate_idempotent_from_50. lia. Defined.

(** X3: a text that fits its budget, or is empty, is returned as it is;
    any other text is cut to a prefix of itself followed by the truncation
    marker, with a blank line between the two when the cut is made at a
    paragraph break. *)
Theorem safe_truncate_shape (text : str) (max_length : Z) :
  (text = [] \/ len text <= max_length -> safe_truncate text max_length = text)
  /\ (text <> [] -> max_length < len text ->
      exists k : nat,
        safe_truncate text max_length = firstn k text ++ TRUNCATION_SUFFIX
        \/ safe_truncate text max_length
           = firstn k text ++ para_break ++ TRUNCATION_SUFFIX).
Proof.
  unfold safe_truncate.
  destruct (safe_truncate_with_cases text max_length TRUNCATION_SUFFIX)
    as [[H E] | [[Ht E] | [[Hlen [Hcut E]] | [Hlen [Hcut E]]]]]; rewrite E; split.
  - intros _. reflexivity.
  - intros _ Hlt. lia.
  - intros _. reflexivity.
  - intros Hne _. contradiction.
  - intros [-> | H]; [ | lia]. exfalso.
    change (safe_truncate_with [] max_length TRUNCATION_SUFFIX) with (@nil ascii) in E.
    symmetry in E. apply app_eq_nil in E. destruct E as [_ E]. discriminate E.
  - intros _ _. eexists. right. unfold slice_to. reflexivity.
  - intros [-> | H]; [ | lia]. exfalso.
    change (safe_truncate_with [] max_length TRUNCATION_SUFFIX) with (@nil ascii) in E.
    symmetry in E. apply app_eq_nil in E. destruct E as [_ E]. discriminate E.
  - intros _ _. eexists. left. unfold slice_to. reflexivity.
Qed.

Lemma safe_truncate_shape_witness :
  exists k : nat,
    safe_truncate Sample2.one_block 100 = firstn k Sample2.one_block ++ TRUNCATION_SUFFIX
    \/ safe_truncate Sample2.one_block 100
       = firstn k Sample2.one_block ++ para_break ++ TRUNCATION_SUFFIX.
Proof.
  apply (proj2 (safe_truncate_shape Sample2.one_block 100)).
  - discriminate.
  - reflexivity.
Defined.

(** X4: with a budget of at least 50, a cut at a paragraph break is made
    where the text has a blank line, after more than half of the budget and
    at least 52 characters before its end: the text is the kept prefix, the
    blank line, and the part dropped. *)
Theorem safe_truncate_cuts_at_blank_line (text : str) (max_length : Z) :
  50 <= max_length ->
  max_length < len text ->
  max_length / 2 < rfind (slice_to text (max_length - 50)) para_break ->
  exists (kept dropped : str),
    text = kept ++ para_break ++ dropped
    /\ safe_truncate text max_length = kept ++ para_break ++ TRUNCATION_SUFFIX
    /\ max_length / 2 < len kept <= max_length - 52.
Proof.
  intros Hn Hlen Hcut.
  set (cut := rfind (slice_to text (max_length - 50)) para_break) in *.
  assert (H2 : 0 <= max_length / 2) by (apply Z.div_pos; lia).
  destruct (rfind_range (slice_to text (max_length - 50)) para_break) as [E | [Hlo Hhi]];
    fold cut in E || fold cut in Hlo, Hhi; [lia | ].
  rewrite len_slice_to, len_para_break in Hhi by lia.
  destruct (rfind_occurs (slice_to text (max_length - 50)) para_break) as [rest Ho];
    fold cut; [lia | ]. fold cut in Ho.
  exists (slice_to text cut),
         (rest ++ skipn (Z.to_nat (max_length - 50)) text).
  split; [ | split].
  - rewrite <- (firstn_skipn (Z.to_nat (max_length - 50)) text) at 1.
    rewrite <- (slice_to_nonneg text (max_length - 50)) by lia.
    rewrite Ho at 1. rewrite <- (slice_to_nonneg _ cut) by lia.
    rewrite slice_to_slice_to by lia. rewrite <- !app_assoc. reflexivity.
  - unfold safe_truncate.
    destruct (safe_truncate_with_cases text max_length TRUNCATION_SUFFIX)
      as [[H E] | [[Ht E] | [[_ [_ E]] | [_ [Hc E]]]]].
    + lia.
    + subst text. cbn in Hlen. lia.
    + exact E.
    + fold cut in Hc. lia.
  - rewrite len_slice_to by lia. lia.
Qed.

Lemma safe_truncate_cuts_at_blank_line_witness :
  exists (kept dropped : str),
    Sample2.two_paragraphs = kept ++ para_break ++ dropped
    /\ safe_truncate Sample2.two_paragraphs 115 = kept ++ para_break ++ TRUNCATION_SUFFIX
    /\ 115 / 2 < len kept <= 115 - 52.
Proof.
  apply safe_truncate_cuts_at_blank_line.
  - lia.
  - reflexivity.
  - reflexivity.
Defined.

(** ** Input normalization and URL selection *)

Lemma str_eqb_eq (a b : str) : str_eqb a b = true <-> a = b.
Proof.
  revert b. induction a as [|x a IH]; intros [|y b]; cbn; split; intros H;
    try reflexivity; try discriminate.
  - apply andb_prop in H. destruct H as [Hxy H]. apply Ascii.eqb_eq in Hxy.
    apply IH in H. congruence.
  - injection H as -> ->. unfold ascii_eqb. rewrite Ascii.eqb_refl.
    apply IH. reflexivity.
Qed.

Lemma normalize_sources_cases (sources : str) :
  normalize_sources sources = lit "web"
  \/ normalize_sources sources = lit "academic"
  \/ normalize_sources sources = lit "both".
Proof.
  unfold normalize_sources.
  destruct (in_list (strip (lower sources)) [lit "web"; lit "academic"; lit "both"]) eqn:E;
    cbn [negb]; [ | right; right; reflexivity].
  cbn [in_list existsb] in E.
  destruct (str_eqb (strip (lower sources)) (lit "web")) eqn:E1;
    [apply str_eqb_eq in E1; auto | ].
  destruct (str_eqb (strip (lower sources)) (lit "academic")) eqn:E2;
    [apply str_eqb_eq in E2; auto | ].
  destruct (str_eqb (strip (lower sources)) (lit "both")) eqn:E3;
    [apply str_eqb_eq in E3; auto | discriminate E].
Qed.

(** X5: whatever text is passed as [sources], the value the orchestrator
    works with is one of ["web"], ["academic"] and ["both"], and
    normalizing it again changes nothing. *)
Theorem normalize_sources_valid (sources : str) :
  (normalize_sources sources = lit "web"
   \/ normalize_sources sources = lit "academic"
   \/ normalize_sources sources = lit "both")
  /\ normalize_sources (normalize_sources sources) = normalize_sources sources.
Proof.
  pose proof (normalize_sources_cases sources) as H. split; [exact H | ].
  destruct H as [E | [E | E]]; rewrite E; reflexivity.
Qed.

Lemma in_firstn {A} (x : A) (k : nat) (l : list A) : In x (firstn k l) -> In x l.
Proof.
  revert k. induction l as [|y l IH]; intros [|k] H; cbn in *; try contradiction.
  destruct H as [-> | H]; [left; reflexivity | right; eapply IH; exact H].
Qed.

Lemma in_slice_to {A} (x : A) (l : list A) (k : Z) : In x (slice_to l k) -> In x l.
Proof. unfold slice_to. apply in_firstn. Qed.

Lemma in_interleave (web_urls academic_urls : list str) (u : str * str) :
  In u (interleave web_urls academic_urls) ->
  (exists url, u = tag_web url /\ In url web_urls)
  \/ (exists url, u = tag_academic url /\ In url academic_urls).
Proof.
  revert academic_urls. induction web_urls as [|w ws IH]; intros academic_urls H.
  - cbn in H. apply in_map_iff in H. destruct H as (url & <- & H).
    right. exists url. split; [reflexivity | exact H].
  - cbn in H. destruct H as [<- | H].
    + left. exists w. split; [reflexivity | left; reflexivity].
    + destruct academic_urls as [|a acs].
      * apply in_map_iff in H. destruct H as (url & <- & H).
        left. exists url. split; [reflexivity | right; exact H].
      * destruct H as [<- | H].
        -- right. exists a. split; [reflexivity | left; reflexivity].
        -- destruct (IH acs H) as [(url & -> & Hin) | (url & -> & Hin)].
           ++ left. exists url. split; [reflexivity | right; exact Hin].
           ++ right. exists url. split; [reflexivity | right; exact Hin].
Qed.

(** The three branches of [combine_urls]. *)
Lemma combine_urls_cases (sources : str) (web_urls academic_urls : list str)
    (num_results : Z) :
  combine_urls sources web_urls academic_urls num_results
  = slice_to (interleave web_urls academic_urls) num_results
  \/ combine_urls sources web_urls academic_urls num_results
     = map tag_web (slice_to web_urls num_results)
  \/ combine_urls sources web_urls academic_urls num_results
     = map tag_academic (slice_to academic_urls num_results).
Proof.
  unfold combine_urls.
  destruct (str_eqb sources (lit "both")).
  - left. rewrite interleave_rounds_all. reflexivity.
  - destruct (str_eqb sources (lit "web")); [right; left | right; right]; reflexivity.
Qed.

Lemma len_map {A B} (f : A -> B) (l : list A) : len (map f l) = len l.
Proof. unfold len. rewrite length_map. reflexivity. Qed.

Lemma combine_urls_len (sources : str) (web_urls academic_urls : list str)
    (num_results : Z) :
  0 <= num_results ->
  len (combine_urls sources web_urls academic_urls num_results) <= num_results.
Proof.
  intros Hn.
  destruct (combine_urls_cases sources web_urls academic_urls num_results)
    as [-> | [-> | ->]]; rewrite ?len_map, len_slice_to by assumption; lia.
Qed.

(** X6: for a count that is not negative the combined list never has more
    than [num_results] entries, whatever [sources] is; and every entry,
    for any count, is a URL of the web list tagged ["web"] or a URL of the
    academic list tagged ["academic"]. *)
Theorem combine_urls_capped_and_sourced (sources : str)
    (web_urls academic_urls : list str) (num_results : Z) :
  (0 <= num_results ->
   len (combine_urls sources web_urls academic_urls num_results) <= num_results)
  /\ (forall kind url : str,
         In (kind, url) (combine_urls sources web_urls academic_urls num_results) ->
         (kind = lit "web" /\ In url web_urls)
         \/ (kind = lit "academic" /\ In url academic_urls)).
Proof.
  split; [apply combine_urls_len | ].
  intros kind url H.
  destruct (combine_urls_cases sources web_urls academic_urls num_results)
    as [E | [E | E]]; rewrite E in H.
  - apply in_slice_to, in_interleave in H.
    destruct H as [(u & Hu & Hin) | (u & Hu & Hin)]; injection Hu as -> ->; auto.
  - apply in_map_iff in H. destruct H as (u & Hu & Hin). injection Hu as <- <-.
    left. split; [reflexivity | eapply in_slice_to; exact Hin].
  - apply in_map_iff in H. destruct H as (u & Hu & Hin). injection Hu as <- <-.
    right. split; [reflexivity | eapply in_slice_to; exact Hin].
Qed.

Lemma combine_urls_capped_and_sourced_witness :
  len (combine_urls (lit "both") [lit "w1"; lit "w2"; lit "w3"] [lit "a1"; lit "a2"] 2) <= 2.
Proof.
  apply (proj1 (combine_urls_capped_and_sourced (lit "both")
                  [lit "w1"; lit "w2"; lit "w3"] [lit "a1"; lit "a2"] 2)).
  lia.
Defined.

Lemma filter_firstn_prefix {A} (p : A -> bool) (l : list A) (m : nat) :
  exists k, filter p (firstn m l) = firstn k (filter p l).
Proof.
  revert m. induction l as [|x l IH]; intros m.
  - exists 0%nat. rewrite firstn_nil. reflexivity.
  - destruct m as [|m]; [exists 0%nat; reflexivity | ].
    destruct (IH m) as [k Hk]. cbn [firstn filter].
    destruct (p x); [exists (S k); cbn; rewrite Hk | exists k; rewrite Hk]; reflexivity.
Qed.

Lemma urls_of_map_same (kind : str) (l : list str) :
  urls_of kind (map (fun url => (kind, url)) l) = l.
Proof.
  unfold urls_of. induction l as [|x l IH]; [reflexivity | ].
  cbn. replace (str_eqb kind kind) with true by (symmetry; apply str_eqb_eq; reflexivity).
  cbn. rewrite IH. reflexivity.
Qed.

Lemma urls_of_map_other (kind other : str) (l : list str) :
  str_eqb other kind = false ->
  urls_of kind (map (fun url => (other, url)) l) = [].
Proof.
  intros H. unfold urls_of. induction l as [|x l IH]; [reflexivity | ].
  cbn. rewrite H. exact IH.
Qed.

Lemma urls_of_cons_same (kind url : str) (l : list (str * str)) :
  urls_of kind ((kind, url) :: l) = url :: urls_of kind l.
Proof.
  unfold urls_of. cbn [filter fst].
  replace (str_eqb kind kind) with true by (symmetry; apply str_eqb_eq; reflexivity).
  reflexivity.
Qed.

Lemma urls_of_cons_other (kind other url : str) (l : list (str * str)) :
  str_eqb other kind = false ->
  urls_of kind ((other, url) :: l) = urls_of kind l.
Proof. intros H. unfold urls_of. cbn [filter fst]. rewrite H. reflexivity. Qed.

Lemma urls_of_interleave (web_urls academic_urls : list str) :
  urls_of (lit "web") (interleave web_urls academic_urls) = web_urls
  /\ urls_of (lit "academic") (interleave web_urls academic_urls) = academic_urls.
Proof.
  revert academic_urls. induction web_urls as [|w ws IH]; intros academic_urls.
  - cbn [interleave]. split.
    + apply (urls_of_map_other (lit "web") (lit "academic")). reflexivity.
    + apply (urls_of_map_same (lit "academic")).
  - destruct academic_urls as [|a acs].
    + cbn [interleave]. change (tag_web w :: map tag_web ws) with (map tag_web (w :: ws)).
      split.
      * apply (urls_of_map_same (lit "web")).
      * apply (urls_of_map_other (lit "academic") (lit "web")). reflexivity.
    + destruct (IH acs) as [Hw Ha]. cbn [interleave]. unfold tag_web, tag_academic.
      split.
      * rewrite urls_of_cons_same, urls_of_cons_other by reflexivity.
        rewrite Hw. reflexivity.
      * rewrite urls_of_cons_other, urls_of_cons_same by reflexivity.
        rewrite Ha. reflexivity.
Qed.

(** X7: interleaving keeps each source's own order: the web URLs of the
    combined list are a prefix of the web list and its academic URLs a
    prefix of the academic list, for any [sources] and any count. *)
Theorem combine_urls_keeps_order (sources : str) (web_urls academic_urls : list str)
    (num_results : Z) :
  exists k j : nat,
    urls_of (lit "web") (combine_urls sources web_urls academic_urls num_results)
    = firstn k web_urls
    /\ urls_of (lit "academic") (combine_urls sources web_urls academic_urls num_results)
       = firstn j academic_urls.
Proof.
  destruct (urls_of_interleave web_urls academic_urls) as [Hw Ha].
  destruct (combine_urls_cases sources web_urls academic_urls num_results)
    as [-> | [-> | ->]].
  - unfold urls_of in *. unfold slice_to.
    destruct (filter_firstn_prefix (fun u : str * str => str_eqb (fst u) (lit "web"))
                (interleave web_urls academic_urls)
                (Z.to_nat (if num_results <? 0
                           then len (interleave web_urls academic_urls) + num_results
                           else num_results))) as [k Hk].
    destruct (filter_firstn_prefix (fun u : str * str => str_eqb (fst u) (lit "academic"))
                (interleave web_urls academic_urls)
                (Z.to_nat (if num_results <? 0
                           then len (interleave web_urls academic_urls) + num_results
                           else num_results))) as [j Hj].
    exists k, j. rewrite Hk, Hj, <- !firstn_map, Hw, Ha. split; reflexivity.
  - eexists _, 0%nat. split.
    + rewrite (urls_of_map_same (lit "web")). unfold slice_to. reflexivity.
    + apply (urls_of_map_other (lit "academic") (lit "web")). reflexivity.
  - eexists 0%nat, _. split.
    + apply (urls_of_map_other (lit "web") (lit "academic")). reflexivity.
    + rewrite (urls_of_map_same (lit "academic")). unfold slice_to. reflexivity.
Qed.

(** ** The calls of one request and the size of its report *)

Lemma clamp_results_le (num_results : Z) :
  clamp_results num_results <= MAX_RESULTS
  /\ clamp_results num_results <= num_results
  /\ (0 <= num_results -> 0 <= clamp_results num_results).
Proof.
  unfold clamp_results, MAX_RESULTS.
  destruct (num_results >? 3) eqn:E; rewrite Z.gtb_ltb in E;
    [apply Z.ltb_lt in E | apply Z.ltb_ge in E]; lia.
Qed.

Section TraceFacts.

Context {W : Type}.
Variable web_search : str -> Z -> M W str.
Variable academic_search : str -> Z -> M W str.
Variable follow_link : str -> M W str.

Local Abbreviation St := (W * list call)%type.

(** The searches are made in order, each at most once, whatever they
    answer. *)
Lemma collect_trace (query sources : str) (num_results : Z) (s s1 : St)
    (result : str) (web_urls academic_urls : list str) :
  collect web_search academic_search query sources num_results s
  = (Ok (result, web_urls, academic_urls), s1) ->
  snd s1 = snd s ++ search_calls sources query num_results.
Proof.
  unfold collect, bind, search_calls.
  rewrite collect_web_run.
  destruct (in_list sources [lit "web"; lit "both"]).
  - destruct (web_search query num_results (fst s)) as [[t | e] w1];
      rewrite collect_academic_run;
      destruct (in_list sources [lit "academic"; lit "both"]); cbn [fst snd];
      try (destruct (academic_search query num_results w1) as [[t2 | e2] w2]);
      unfold ret; intros H; inversion H; subst; cbn [snd];
      rewrite <- ?app_assoc, ?app_nil_r; reflexivity.
  - rewrite collect_academic_run.
    destruct (in_list sources [lit "academic"; lit "both"]); cbn [fst snd];
      try (destruct (academic_search query num_results (fst s)) as [[t2 | e2] w2]);
      unfold ret; intros H; inversion H; subst; cbn [snd app];
      rewrite ?app_nil_r; reflexivity.
Qed.

(** One request: its report, and the calls it made. *)
Lemma research_trace_shape (query sources : str) (num_results : Z) (s : St) :
  let sources' := normalize_sources sources in
  let n := clamp_results num_results in
  exists (report : str) (s' : St) (combined_urls : list (str * str)),
    research web_search academic_search follow_link query sources num_results s
    = (Ok report, s')
    /\ snd s' = snd s ++ search_calls sources' query n
                ++ map (fun u => CallFollowLink (snd u)) combined_urls
    /\ (0 <= n -> len combined_urls <= n).
Proof.
  intros sources' n.
  destruct (collect_total web_search academic_search query sources' n s)
    as (m & wu & au & s1 & Hc & _).
  pose proof (collect_trace _ _ _ _ _ _ _ _ Hc) as Ht.
  unfold research. fold sources' n.
  assert (Hfull : forall combined_urls,
             combined_urls = combine_urls sources' wu au n ->
             exists body s2,
               follow_all follow_link 1 combined_urls
                 ((intro query sources' ++ m)
                  ++ lit "DETAILED CONTENT FROM TOP " ++ str_of_Z (len combined_urls)
                  ++ lit " SOURCES:" ++ para_break) s1 = (Ok body, s2)
               /\ snd s2 = snd s ++ search_calls sources' query n
                           ++ map (fun u => CallFollowLink (snd u)) combined_urls).
  { intros cu _.
    destruct (follow_all_total follow_link cu 1
                ((intro query sources' ++ m)
                 ++ lit "DETAILED CONTENT FROM TOP " ++ str_of_Z (len cu)
                 ++ lit " SOURCES:" ++ para_break) s1) as (m' & s2 & Hfa & Ht2).
    eexists _, s2. split; [exact Hfa | ]. rewrite Ht2, Ht, <- app_assoc. reflexivity. }
  destruct wu as [|w0 wu]; [destruct au as [|a0 au] | ].
  - exists ((intro query sources' ++ m) ++ NO_RESULTS), s1, [].
    split; [ | split].
    + apply top_level_ok. rewrite (research_body_run _ _ _ _ _ _ _ _ _ _ _ Hc). reflexivity.
    + rewrite Ht. cbn [map]. rewrite app_nil_r. reflexivity.
    + intros Hn. exact Hn.
  - destruct (Hfull _ eq_refl) as (body & s2 & Hfa & Ht2).
    eexists _, s2, (combine_urls sources' [] (a0 :: au) n). split; [ | split].
    + apply top_level_ok. rewrite (research_body_run _ _ _ _ _ _ _ _ _ _ _ Hc).
      cbv zeta. rewrite Hfa. reflexivity.
    + exact Ht2.
    + apply combine_urls_len.
  - destruct (Hfull _ eq_refl) as (body & s2 & Hfa & Ht2).
    eexists _, s2, (combine_urls sources' (w0 :: wu) au n). split; [ | split].
    + apply top_level_ok. rewrite (research_body_run _ _ _ _ _ _ _ _ _ _ _ Hc).
      cbv zeta. rewrite Hfa. reflexivity.
    + exact Ht2.
    + apply combine_urls_len.
Qed.

(** X8: one request calls the web search first and the academic search
    second, each at most once and only when [sources] asks for it, with
    the clamped count, and whatever the first one answered or raised; the
    link extractor is called only after both. *)
Theorem research_call_order (query sources : str) (num_results : Z) (s : St) :
  let n := clamp_results num_results in
  exists (report : str) (s' : St) (urls : list str),
    research web_search academic_search follow_link query sources num_results s
    = (Ok report, s')
    /\ ((normalize_sources sources = lit "web"
         /\ snd s' = snd s ++ [CallWebSearch query n] ++ map CallFollowLink urls)
        \/ (normalize_sources sources = lit "academic"
            /\ snd s' = snd s ++ [CallAcademicSearch query n] ++ map CallFollowLink urls)
        \/ (normalize_sources sources = lit "both"
            /\ snd s' = snd s ++ [CallWebSearch query n; CallAcademicSearch query n]
                        ++ map CallFollowLink urls)).
Proof.
  intros n.
  destruct (research_trace_shape query sources num_results s)
    as (report & s' & cu & Hrun & Ht & _).
  exists report, s', (map snd cu). split; [exact Hrun | ].
  rewrite map_map. fold n in Ht.
  destruct (normalize_sources_cases sources) as [E | [E | E]]; rewrite E in Ht.
  - left. split; [exact E | exact Ht].
  - right. left. split; [exact E | exact Ht].
  - right. right. split; [exact E | exact Ht].
Qed.

(** X9: for a count that is not negative, one request calls the link
    extractor at most [num_results] times and never more than 3 times. *)
Theorem research_follows_at_most_three (query sources : str) (num_results : Z) (s : St) :
  0 <= num_results ->
  exists (report : str) (s' : St),
    research web_search academic_search follow_link query sources num_results s
    = (Ok report, s')
    /\ Z.of_nat (follow_calls (snd s'))
       <= Z.of_nat (follow_calls (snd s)) + Z.min num_results 3.
Proof.
  intros Hn.
  destruct (research_trace_shape query sources num_results s)
    as (report & s' & cu & Hrun & Ht & Hlen).
  exists report, s'. split; [exact Hrun | ].
  destruct (clamp_results_le num_results) as (H3 & Hle & H0).
  specialize (Hlen (H0 Hn)). unfold len in Hlen.
  rewrite Ht, !follow_calls_app, follow_calls_links.
  assert (Hs : follow_calls (search_calls (normalize_sources sources) query
                               (clamp_results num_results)) = 0%nat).
  { unfold search_calls. destruct (in_list _ _); destruct (in_list _ _); reflexivity. }
  rewrite Hs. unfold MAX_RESULTS in H3. lia.
Qed.

End TraceFacts.

Lemma research_follows_at_most_three_witness :
  exists (report : str) (s' : Sample.World * list call),
    research Sample.one_hit_search Sample.one_hit_search Sample.page
      (lit "q") (lit "both") 5 (0%nat, [])
    = (Ok report, s')
    /\ Z.of_nat (follow_calls (snd s')) <= 0 + Z.min 5 3.
Proof.
  apply (research_follows_at_most_three Sample.one_hit_search Sample.one_hit_search
           Sample.page (lit "q") (lit "both") 5 (0%nat, [])).
  lia.
Defined.

(** The budgeted body and the summary together stay under the maximum
    content size whenever the summary leaves the body a budget of 50. *)
Lemma len_finish (result summary : str) :
  50 <= budget summary ->
  len (finish result summary) <= MAX_CONTENT_SIZE - 8.
Proof.
  intros Hb. unfold finish. fold (budget summary).
  destruct (len result >? budget summary) eqn:E; rewrite Z.gtb_ltb in E;
    [apply Z.ltb_lt in E | apply Z.ltb_ge in E]; rewrite len_app.
  - pose proof (safe_truncate_with_bound result (budget summary) TRUNCATION_SUFFIX Hb) as H.
    fold (safe_truncate result (budget summary)) in H.
    rewrite len_TRUNCATION_SUFFIX in H. unfold budget in *. lia.
  - unfold budget in *. lia.
Qed.

Lemma len_lit_digit (n : Z) : 0 <= n <= 3 -> len (str_of_Z n) = 1.
Proof.
  intros H. assert (C : n = 0 \/ n = 1 \/ n = 2 \/ n = 3) by lia.
  destruct C as [-> | [-> | [-> | ->]]]; reflexivity.
Qed.

(** The summary is the query plus at most 175 characters when at most
    three sources were examined. *)
Lemma len_summary_of (query sources : str) (combined_urls : list (str * str)) :
  len combined_urls <= 3 ->
  len (summary_of query (normalize_sources sources) combined_urls) <= len query + 175.
Proof.
  intros Hc. pose proof (len_nonneg combined_urls) as H0.
  unfold summary_of. rewrite !len_app, len_lit_digit by lia.
  destruct (normalize_sources_cases sources) as [E | [E | E]]; rewrite E;
    cbn [str_eqb]; vm_compute (str_eqb _ _); cbv iota; rewrite ?len_app;
    repeat match goal with
           | |- context [len (lit ?x)] =>
               let v := eval vm_compute in (len (lit x)) in
               change (len (lit x)) with v
           | |- context [len nl] => change (len nl) with 1
           end; lia.
Qed.

Section SizeFacts.

Context {W : Type}.
Variable web_search : str -> Z -> M W str.
Variable academic_search : str -> Z -> M W str.
Variable follow_link : str -> M W str.

(** X10: for a count that is not negative and a query of at most 7700
    characters, a request that found at least one URL returns a report of
    at most 7992 characters, whatever the adapters and the pages hold: the
    body is cut to its budget and the summary added after the cut still
    fits. *)
Theorem report_within_size (query sources : str) (num_results : Z)
    (s s1 : W * list call) (result : str) (web_urls academic_urls : list str) :
  0 <= num_results ->
  len query <= 7700 ->
  collect web_search academic_search query
    (normalize_sources sources) (clamp_results num_results) s
  = (Ok (result, web_urls, academic_urls), s1) ->
  ~ (web_urls = [] /\ academic_urls = []) ->
  exists (report : str) (s' : W * list call),
    research web_search academic_search follow_link query sources num_results s
    = (Ok report, s')
    /\ len report <= 7992.
Proof.
  intros Hn Hq Hc Hne.
  set (sources' := normalize_sources sources) in *.
  set (n := clamp_results num_results) in *.
  set (combined_urls := combine_urls sources' web_urls academic_urls n).
  destruct (clamp_results_le num_results) as (H3 & _ & H0). fold n in H3, H0.
  assert (Hlen : len combined_urls <= 3).
  { pose proof (combine_urls_len sources' web_urls academic_urls n (H0 Hn)).
    unfold MAX_RESULTS in H3. fold combined_urls in H. lia. }
  destruct (follow_all_total follow_link combined_urls 1
              (result ++ lit "DETAILED CONTENT FROM TOP " ++ str_of_Z (len combined_urls)
               ++ lit " SOURCES:" ++ para_break) s1) as (m & s2 & Hfa & _).
  eexists _, s2. split.
  - unfold research. fold sources' n. apply top_level_ok.
    rewrite (research_body_run _ _ _ _ _ _ _ _ _ _ _ Hc).
    destruct web_urls, academic_urls;
      [exfalso; apply Hne; split; reflexivity | | | ];
      cbv zeta; fold combined_urls; rewrite Hfa; reflexivity.
  - change 7992 with (MAX_CONTENT_SIZE - 8). apply len_finish.
    pose proof (len_summary_of query sources combined_urls Hlen) as Hs.
    fold sources' in Hs. unfold budget, MAX_CONTENT_SIZE. lia.
Qed.

End SizeFacts.

Lemma report_within_size_witness :
  exists (report : str) (s' : Sample.World * list call),
    research Sample.failing_search Sample.one_hit_search Sample.page
      Sample.long_query (lit "both") 2 (0%nat, [])
    = (Ok report, s')
    /\ len report <= 7992.
Proof.
  apply (report_within_size Sample.failing_search Sample.one_hit_search Sample.page
           Sample.long_query (lit "both") 2 (0%nat, [])
           (2%nat, [CallWebSearch Sample.long_query 2;
                    CallAcademicSearch Sample.long_query 2])
           ((intro Sample.long_query (lit "both")
             ++ lit "WEB SEARCH ERROR: " ++ slice_to (lit "connection refused") 100
             ++ para_break)
            ++ lit "ACADEMIC SEARCH RESULTS:" ++ nl
            ++ (lit "Web search results for: " ++ Sample.long_query ++ para_break
                ++ lit "1. Example" ++ nl ++ lit "   URL: https://example.org/a" ++ nl
                ++ lit "   An example page" ++ para_break)
            ++ para_break)
           [] [lit "https://example.org/a"]).
  - lia.
  - vm_compute. discriminate.
  - vm_compute. reflexivity.
  - intros [_ H]. discriminate H.
Defined.

(** ** The web adapter *)

Lemma len_slice_to_le {A} (s : list A) (k : Z) : 0 <= k -> len (slice_to s k) <= k.
Proof. intros H. rewrite len_slice_to by assumption. lia. Qed.

Lemma len_cons {A} (x : A) (l : list A) : len (x :: l) = 1 + len l.
Proof. unfold len. cbn [List.length]. lia. Qed.

Lemma len_nil {A} : len (@nil A) = 0.
Proof. reflexivity. Qed.

Lemma titled_cons (block : ResultBlock) (rest : list ResultBlock) :
  titled (block :: rest)
  = match title_elem block with
    | Some _ => block :: titled rest
    | None => titled rest
    end.
Proof. unfold titled. cbn [filter]. destruct (title_elem block); reflexivity. Qed.

Section WebFacts.

Context {W : Type}.
Variable http_get : str -> list (str * str) -> M W Response.
Variable quote_plus : str -> str.
Variable unquote : str -> str.
Variable status_error_message : Response -> str.
Variable BeautifulSoup : str -> outcome Soup.

(** The loop stops at [num_results] hits and passes over the blocks that
    have no title link. *)
Lemma len_web_hits (num_results : Z) (result_blocks : list ResultBlock)
    (search_results : list SearchResult) :
  len (web_hits unquote num_results result_blocks search_results)
  = Z.max (len search_results)
          (Z.min num_results (len search_results + len (titled result_blocks))).
Proof.
  revert search_results.
  induction result_blocks as [|block rest IH]; intros acc.
  - cbn [web_hits titled filter]. rewrite len_nil. pose proof (len_nonneg acc). lia.
  - cbn [web_hits]. rewrite titled_cons.
    pose proof (len_nonneg (titled rest)) as Ht. pose proof (len_nonneg acc) as Ha.
    destruct (len acc >=? num_results) eqn:E;
      rewrite Z.geb_leb in E; [apply Z.leb_le in E | apply Z.leb_gt in E].
    + destruct (title_elem block); rewrite ?len_cons; lia.
    + destruct (title_elem block) as [elem | ].
      * rewrite IH, len_app, !len_cons, len_nil. lia.
      * rewrite IH. lia.
Qed.

Lemma web_hits_within_caps (num_results : Z) (result_blocks : list ResultBlock)
    (search_results : list SearchResult) :
  Forall within_caps search_results ->
  Forall within_caps (web_hits unquote num_results result_blocks search_results).
Proof.
  revert search_results.
  induction result_blocks as [|block rest IH]; intros acc Hacc; [exact Hacc | ].
  cbn [web_hits]. destruct (len acc >=? num_results); [exact Hacc | ].
  destruct (title_elem block) as [elem | ]; [ | apply IH; exact Hacc].
  apply IH. apply Forall_app. split; [exact Hacc | ].
  constructor; [ | constructor].
  unfold within_caps. cbn [sr_title sr_url sr_authors_info sr_snippet].
  repeat split; try (apply len_slice_to_le; lia). cbn. lia.
Qed.

(** X11: the web adapter keeps as many hits as there are result blocks
    with a title link, up to [num_results]; blocks without a title link
    do not count, and a count of zero or less keeps none. *)
Theorem web_hits_count (num_results : Z) (result_blocks : list ResultBlock) :
  len (web_hits unquote num_results result_blocks [])
  = Z.min (Z.max num_results 0) (len (titled result_blocks)).
Proof.
  rewrite len_web_hits. change (len (@nil SearchResult)) with 0.
  pose proof (len_nonneg (titled result_blocks)). lia.
Qed.

(** X12: every hit of the web adapter has a title of at most 100
    characters, a URL of at most 150 and a snippet of at most 200. *)
Theorem web_hits_capped (num_results : Z) (result_blocks : list ResultBlock)
    (r : SearchResult) :
  In r (web_hits unquote num_results result_blocks []) ->
  len (sr_title r) <= 100 /\ len (sr_url r) <= 150 /\ len (sr_snippet r) <= 200.
Proof.
  intros Hin.
  pose proof (web_hits_within_caps num_results result_blocks [] (Forall_nil _)) as H.
  rewrite Forall_forall in H. destruct (H r Hin) as (Ht & Hu & _ & Hs). auto.
Qed.

(** X13: on a response that is accepted and parses, [_web_search] returns
    the sentence ["No web results found for: "] with the query when the
    count is zero or less or no block has a title link, and raises
    nothing; otherwise it returns the numbered list under its heading,
    with as many entries as there are titled blocks, up to the count. *)
Theorem web_search_results_or_sentence (query : str) (num_results : Z) (w w' : W)
    (response : Response) (soup : Soup) :
  http_get (web_request_url quote_plus query) html_headers w = (Ok response, w') ->
  is_success response = true ->
  BeautifulSoup (text response) = Ok soup ->
  (num_results <= 0 \/ titled (select_result soup) = [] ->
   _web_search http_get quote_plus unquote status_error_message BeautifulSoup
     query num_results w
   = (Ok (lit "No web results found for: " ++ query), w'))
  /\ (0 < num_results -> titled (select_result soup) <> [] ->
      exists hits : list SearchResult,
        _web_search http_get quote_plus unquote status_error_message BeautifulSoup
          query num_results w
        = (Ok (lit "Web search results for: " ++ query ++ para_break
               ++ format_web 1 hits), w')
        /\ len hits = Z.min num_results (len (titled (select_result soup)))).
Proof.
  intros Hget Hs Hsoup.
  assert (Hrun : _web_search http_get quote_plus unquote status_error_message BeautifulSoup
                   query num_results w
                 = (Ok (match web_hits unquote num_results (select_result soup) [] with
                        | _ :: _ =>
                            lit "Web search results for: " ++ query ++ para_break
                            ++ format_web 1 (web_hits unquote num_results (select_result soup) [])
                        | [] => lit "No web results found for: " ++ query
                        end), w')).
  { unfold _web_search, try_except, bind, lift, ret.
    unfold web_request_url, html_headers in Hget. rewrite Hget.
    unfold raise_for_status. rewrite Hs, Hsoup. reflexivity. }
  rewrite Hrun.
  pose proof (web_hits_count num_results (select_result soup)) as Hc.
  pose proof (len_nonneg (titled (select_result soup))) as Ht.
  split.
  - intros Hnone.
    destruct (web_hits unquote num_results (select_result soup) []) as [|h hits];
      [reflexivity | ].
    exfalso. unfold len in Hc at 1. cbn [List.length] in Hc.
    destruct Hnone as [Hn | He]; [lia | ]. rewrite He in Hc. cbn in Hc. lia.
  - intros Hn Hne.
    destruct (web_hits unquote num_results (select_result soup) []) as [|h hits] eqn:E.
    + exfalso. change (len (@nil SearchResult)) with 0 in Hc.
      destruct (titled (select_result soup)) as [|b bs]; [contradiction | ].
      unfold len in Hc. cbn [List.length] in Hc. lia.
    + exists (h :: hits). split; [reflexivity | ]. rewrite Hc. lia.
Qed.

End WebFacts.

Lemma web_search_results_or_sentence_witness :
  _web_search (Sample.constant_get 200 (lit "text/html") (lit "<html></html>"))
    Sample.plain_quote Sample.plain_quote Sample.status_message
    Sample.text_only_parser (lit "q") 2 0%nat
  = (Ok (lit "No web results found for: q"), 1%nat).
Proof.
  apply (proj1 (web_search_results_or_sentence
                  (Sample.constant_get 200 (lit "text/html") (lit "<html></html>"))
                  Sample.plain_quote Sample.plain_quote Sample.status_message
                  Sample.text_only_parser (lit "q") 2 0%nat 1%nat
                  {| status_code := 200;
                     headers := [(lit "Content-Type", lit "text/html")];
                     text := lit "<html></html>" |}
                  {| select_result := [];
                     soup_title := None;
                     soup_meta_description := None;
                     soup_elements := [];
                     soup_text := lit "<html></html>" |}
                  eq_refl eq_refl eq_refl)).
  right. reflexivity.
Defined.

Lemma web_hits_capped_witness :
  len (sr_title {| sr_title := lit "First"; sr_url := lit "https://a.org/1";
                   sr_authors_info := []; sr_snippet := lit "one" |}) <= 100.
Proof.
  apply (web_hits_capped Sample.plain_quote 2 Sample2.three_blocks
           {| sr_title := lit "First"; sr_url := lit "https://a.org/1";
              sr_authors_info := []; sr_snippet := lit "one" |}).
  left. reflexivity.
Defined.

Example web_hits_sample :
  map sr_title (web_hits Sample.plain_quote 5 Sample2.three_blocks [])
  = [lit "First"; lit "Third"]
  /\ map sr_url (web_hits Sample.plain_quote 5 Sample2.three_blocks [])
     = [lit "https://a.org/1"; []]
  /\ map sr_snippet (web_hits Sample.plain_quote 5 Sample2.three_blocks [])
     = [lit "one"; lit "No snippet available"].
Proof. repeat split; reflexivity. Qed.

(** ** URL extraction from a rendered text *)

Lemma span_fst_forallb (p : ascii -> bool) (s : str) :
  forallb p (fst (span p s)) = true.
Proof.
  induction s as [|c s IH]; [reflexivity | ].
  cbn [span]. destruct (p c) eqn:E; [ | reflexivity].
  destruct (span p s) as [a b]. cbn [fst forallb] in *. rewrite E, IH. reflexivity.
Qed.

(** What a match of the URL pattern gives: the marker is at the head, the
    group is a scheme followed by a run of characters that are not white
    space, and the match covers at least one character. *)
Lemma match_url_some (s g : str) (n : nat) :
  Re.match_url s = Some (g, n) ->
  starts_with (lit "URL: http") s = true
  /\ (1 <= n)%nat
  /\ exists scheme run,
       g = scheme ++ run
       /\ (scheme = lit "http://" \/ scheme = lit "https://")
       /\ run <> []
       /\ forallb Re.not_space run = true.
Proof.
  unfold Re.match_url. destruct (starts_with (lit "URL: http") s); [ | discriminate].
  intros H. split; [reflexivity | ].
  destruct (starts_with (lit "s://") (skipn 9 s)).
  - pose proof (span_fst_forallb Re.not_space (skipn 4 (skipn 9 s))) as Hf.
    destruct (fst (span Re.not_space (skipn 4 (skipn 9 s)))) as [|c run]; [discriminate | ].
    injection H as <- <-. split; [lia | ].
    exists (lit "https://"), (c :: run). repeat split; auto. discriminate.
  - destruct (starts_with (lit "://") (skipn 9 s)); [ | discriminate].
    pose proof (span_fst_forallb Re.not_space (skipn 3 (skipn 9 s))) as Hf.
    destruct (fst (span Re.not_space (skipn 3 (skipn 9 s)))) as [|c run]; [discriminate | ].
    injection H as <- <-. split; [lia | ].
    exists (lit "http://"), (c :: run). repeat split; auto. discriminate.
Qed.

Lemma contains_tail (sub s : str) (c : ascii) :
  contains sub (c :: s) = false -> contains sub s = false.
Proof. cbn [contains]. intros H. apply orb_false_elim in H. tauto. Qed.

Lemma contains_head (sub s : str) :
  contains sub s = false -> starts_with sub s = false.
Proof. destruct s; cbn [contains]; intros H; apply orb_false_elim in H; tauto. Qed.

(** X14: every URL the orchestrator extracts from a rendered text starts
    with ["http://"] or ["https://"], has at least one more character,
    and holds no white space. *)
Theorem findall_urls_well_formed (s url : str) :
  In url (Re.findall_urls s) ->
  exists scheme run,
    url = scheme ++ run
    /\ (scheme = lit "http://" \/ scheme = lit "https://")
    /\ run <> []
    /\ forallb Re.not_space run = true.
Proof.
  unfold Re.findall_urls. generalize 0%nat as skip.
  induction s as [|c s IH]; intros skip H; [contradiction | ].
  cbn [Re.findall_urls_from] in H. destruct skip as [|k]; [ | eapply IH; exact H].
  destruct (Re.match_url (c :: s)) as [[g n] | ] eqn:E; [ | eapply IH; exact H].
  destruct H as [<- | H]; [ | eapply IH; exact H].
  apply match_url_some in E. tauto.
Qed.

Lemma findall_urls_well_formed_witness :
  exists scheme run,
    lit "https://example.org/a" = scheme ++ run
    /\ (scheme = lit "http://" \/ scheme = lit "https://")
    /\ run <> []
    /\ forallb Re.not_space run = true.
Proof.
  apply (findall_urls_well_formed
           (lit "1. Example" ++ nl ++ lit "   URL: https://example.org/a" ++ nl)).
  left. reflexivity.
Defined.

(** X15: a text in which ["URL: http"] does not occur gives no URL, so a
    search block without such a line leaves its URL list empty. *)
Theorem findall_urls_none (s : str) :
  contains (lit "URL: http") s = false -> Re.findall_urls s = [].
Proof.
  unfold Re.findall_urls. generalize 0%nat as skip.
  induction s as [|c s IH]; intros skip H; [reflexivity | ].
  cbn [Re.findall_urls_from]. pose proof (contains_tail _ _ _ H) as Ht.
  destruct skip as [|k]; [ | apply IH; exact Ht].
  destruct (Re.match_url (c :: s)) as [[g n] | ] eqn:E; [ | apply IH; exact Ht].
  apply match_url_some in E. destruct E as [E _].
  apply contains_head in H. congruence.
Qed.

Lemma findall_urls_none_witness :
  Re.findall_urls (lit "No web results found for: quantum computing") = [].
Proof. apply findall_urls_none. reflexivity. Defined.

(** ** From the rendered text back to the URLs *)

Lemma uint_no_U (d : Decimal.uint) :
  forallb not_U (lit (NilEmpty.string_of_uint d)) = true.
Proof. induction d; cbn; auto. Qed.

Lemma uint_or_zero_no_U (d : Decimal.uint) :
  forallb not_U (lit (NilZero.string_of_uint d)) = true.
Proof. destruct d; try reflexivity; apply (uint_no_U (_ d)). Qed.

(** A number in decimal has no [U]. *)
Lemma str_of_Z_no_U (n : Z) : forallb not_U (str_of_Z n) = true.
Proof.
  unfold str_of_Z, NilZero.string_of_int.
  destruct (Z.to_int n) as [d | d]; [apply uint_or_zero_no_U | ].
  change (lit (String "-" (NilZero.string_of_uint d)))
    with ("-"%char :: lit (NilZero.string_of_uint d)).
  cbn [forallb]. rewrite uint_or_zero_no_U. reflexivity.
Qed.

Lemma match_url_no_U (c : ascii) (s : str) :
  not_U c = true -> Re.match_url (c :: s) = None.
Proof.
  intros H. unfold Re.match_url.
  change (starts_with (lit "URL: http") (c :: s))
    with (ascii_eqb "U"%char c && starts_with (lit "RL: http") s).
  unfold not_U in H. apply negb_true_iff in H. rewrite H. reflexivity.
Qed.

(** Characters other than [U] start no match. *)
Lemma findall_pass_no_U (pre rest : str) :
  forallb not_U pre = true ->
  Re.findall_urls_from (pre ++ rest) 0 = Re.findall_urls_from rest 0.
Proof.
  induction pre as [|c pre IH]; intros H; [reflexivity | ].
  cbn [forallb] in H. apply andb_prop in H. destruct H as [Hc H].
  cbn [app Re.findall_urls_from]. rewrite (match_url_no_U c _ Hc). apply IH. exact H.
Qed.

Lemma starts_with_before_nl (m X rest : str) :
  forallb (fun c => negb (Re.is_nl c)) m = true ->
  starts_with m (X ++ nl ++ rest) = true ->
  starts_with m X = true.
Proof.
  revert X. induction m as [|a m IH]; intros X Hm H; [reflexivity | ].
  cbn [forallb] in Hm. apply andb_prop in Hm. destruct Hm as [Ha Hm].
  destruct X as [|x X].
  - exfalso. cbn in H. apply andb_prop in H. destruct H as [H _].
    unfold Re.is_nl in Ha. rewrite H in Ha. discriminate Ha.
  - cbn [app starts_with] in *. apply andb_prop in H. destruct H as [Hax H].
    rewrite Hax. cbn [andb]. apply IH; assumption.
Qed.

(** A stretch without the marker, up to the end of its line, starts no
    match. *)
Lemma findall_pass_clean (X rest : str) :
  no_marker X ->
  Re.findall_urls_from (X ++ nl ++ rest) 0 = Re.findall_urls_from rest 0.
Proof.
  unfold no_marker. induction X as [|c X IH]; intros H.
  - apply (findall_pass_no_U nl rest). reflexivity.
  - cbn [app Re.findall_urls_from].
    assert (Hm : Re.match_url (c :: X ++ nl ++ rest) = None).
    { unfold Re.match_url.
      destruct (starts_with (lit "URL: http") (c :: X ++ nl ++ rest)) eqn:E;
        [ | reflexivity].
      exfalso. apply (starts_with_before_nl (lit "URL: http") (c :: X) rest) in E;
        [ | reflexivity].
      apply contains_head in H. unfold URL_MARKER in H. congruence. }
    rewrite Hm. apply IH. eapply contains_tail. exact H.
Qed.

Lemma span_app_stop (p : ascii -> bool) (run rest : str) (c : ascii) :
  forallb p run = true -> p c = false ->
  span p (run ++ c :: rest) = (run, c :: rest).
Proof.
  intros Hr Hc. induction run as [|x run IH].
  - cbn. rewrite Hc. reflexivity.
  - cbn [forallb] in Hr. apply andb_prop in Hr. destruct Hr as [Hx Hr].
    cbn [app span]. rewrite Hx, (IH Hr). reflexivity.
Qed.

(** A URL line with a well-formed URL is matched whole. *)
Lemma match_url_line (url rest : str) :
  well_formed_url url ->
  Re.match_url (lit "URL: " ++ url ++ nl ++ rest)
  = Some (url, (5 + List.length url)%nat).
Proof.
  intros (scheme & run & -> & Hs & Hne & Hrun).
  assert (Hsp : span Re.not_space (run ++ nl ++ rest) = (run, nl ++ rest))
    by (apply span_app_stop; [exact Hrun | reflexivity]).
  destruct Hs as [-> | ->]; unfold Re.match_url; cbn -[span Re.not_space nl];
    rewrite Hsp; cbn [fst]; destruct run as [|c run]; try contradiction;
    rewrite ?length_app; cbn [List.length]; repeat f_equal.
Qed.

Lemma findall_skip (X Y : str) :
  Re.findall_urls_from (X ++ Y) (List.length X) = Re.findall_urls_from Y 0.
Proof. induction X as [|c X IH]; [reflexivity | exact IH]. Qed.

Lemma findall_url_line (url rest : str) :
  well_formed_url url ->
  Re.findall_urls_from (lit "URL: " ++ url ++ nl ++ rest) 0
  = url :: Re.findall_urls_from rest 0.
Proof.
  intros Hu. pose proof (match_url_line url rest Hu) as Hm.
  change (lit "URL: " ++ url ++ nl ++ rest)
    with ("U"%char :: (lit "RL: " ++ url) ++ nl ++ rest) in *.
  cbn [Re.findall_urls_from]. rewrite Hm. f_equal.
  replace (5 + List.length url - 1)%nat with (List.length (lit "RL: " ++ url))
    by (rewrite length_app; cbn; lia).
  rewrite findall_skip. apply (findall_pass_no_U nl rest). reflexivity.
Qed.

Lemma findall_format_web (hits : list SearchResult) (i : Z) :
  Forall plain_hit hits ->
  Re.findall_urls_from (format_web i hits) 0 = map sr_url hits.
Proof.
  intros H. revert i. induction H as [|r hits (Ht & Hs & Hu) _ IH]; intros i;
    [reflexivity | ].
  cbn [format_web map].
  (* the numbered title line *)
  replace ((str_of_Z i ++ lit ". " ++ sr_title r ++ nl)
           ++ (lit "   URL: " ++ sr_url r ++ nl)
           ++ (lit "   " ++ sr_snippet r ++ para_break)
           ++ format_web (i + 1) hits)
    with ((str_of_Z i ++ lit ". ")
          ++ sr_title r ++ nl
          ++ lit "   "
          ++ lit "URL: " ++ sr_url r ++ nl
          ++ lit "   "
          ++ sr_snippet r ++ nl
          ++ nl ++ format_web (i + 1) hits)
    by (unfold para_break; rewrite <- !app_assoc; reflexivity).
  rewrite findall_pass_no_U
    by (rewrite forallb_app, str_of_Z_no_U; reflexivity).
  rewrite (findall_pass_clean _ _ Ht).
  rewrite (findall_pass_no_U (lit "   ")) by reflexivity.
  rewrite (findall_url_line _ _ Hu). f_equal.
  rewrite (findall_pass_no_U (lit "   ")) by reflexivity.
  rewrite (findall_pass_clean _ _ Hs).
  rewrite (findall_pass_no_U nl) by reflexivity.
  apply IH.
Qed.

(** X16: the URLs the orchestrator reads back from the text of a web
    search are exactly the URLs of the hits, in order, when the query, the
    titles and the snippets do not contain ["URL: http"] and every stored
    URL is an [http://] or [https://] URL without white space. *)
Theorem web_urls_round_trip (query : str) (hits : list SearchResult) :
  no_marker query ->
  Forall plain_hit hits ->
  Re.findall_urls
    (lit "Web search results for: " ++ query ++ para_break ++ format_web 1 hits)
  = map sr_url hits.
Proof.
  intros Hq Hh. unfold Re.findall_urls.
  rewrite (findall_pass_no_U (lit "Web search results for: ")) by reflexivity.
  unfold para_break. rewrite <- !app_assoc.
  rewrite (findall_pass_clean _ _ Hq).
  rewrite (findall_pass_no_U nl) by reflexivity.
  apply findall_format_web. exact Hh.
Qed.

Lemma web_urls_round_trip_witness :
  Re.findall_urls
    (lit "Web search results for: " ++ lit "quantum computing" ++ para_break
     ++ format_web 1 Sample2.two_hits)
  = [lit "https://a.org/1"; lit "http://b.org/2?x=1"].
Proof.
  apply (web_urls_round_trip (lit "quantum computing") Sample2.two_hits).
  - reflexivity.
  - repeat constructor; try reflexivity.
    + exists (lit "https://"), (lit "a.org/1"). repeat split; auto. discriminate.
    + exists (lit "http://"), (lit "b.org/2?x=1"). repeat split; auto. discriminate.
Defined.

Lemma findall_format_academic (hits : list SearchResult) (i : Z) :
  Forall plain_paper_hit hits ->
  Re.findall_urls_from (format_academic i hits) 0 = present_urls hits.
Proof.
  intros H. revert i. induction H as [|r hits (Ht & Ha & Hs & Hu) _ IH]; intros i;
    [reflexivity | ].
  cbn [format_academic]. unfold present_urls. cbn [map filter].
  fold (present_urls hits).
  assert (Htail : forall rest,
             Re.findall_urls_from
               (lit "   " ++ sr_authors_info r ++ nl ++ lit "   " ++ sr_snippet r
                ++ nl ++ nl ++ rest) 0
             = Re.findall_urls_from rest 0).
  { intros rest.
    rewrite (findall_pass_no_U (lit "   ")) by reflexivity.
    rewrite (findall_pass_clean _ _ Ha).
    rewrite (findall_pass_no_U (lit "   ")) by reflexivity.
    rewrite (findall_pass_clean _ _ Hs).
    apply (findall_pass_no_U nl). reflexivity. }
  destruct (sr_url r) as [|c url] eqn:Eu.
  - replace ((str_of_Z i ++ lit ". " ++ sr_title r ++ nl)
             ++ []
             ++ (lit "   " ++ sr_authors_info r ++ nl)
             ++ (lit "   " ++ sr_snippet r ++ para_break)
             ++ format_academic (i + 1) hits)
      with ((str_of_Z i ++ lit ". ")
            ++ sr_title r ++ nl
            ++ lit "   " ++ sr_authors_info r ++ nl ++ lit "   " ++ sr_snippet r
            ++ nl ++ nl ++ format_academic (i + 1) hits)
      by (unfold para_break; cbn [app]; rewrite <- !app_assoc; reflexivity).
    rewrite findall_pass_no_U
      by (rewrite forallb_app, str_of_Z_no_U; reflexivity).
    rewrite (findall_pass_clean _ _ Ht). rewrite Htail. apply IH.
  - destruct Hu as [Hu | Hu]; [discriminate Hu | ].
    replace ((str_of_Z i ++ lit ". " ++ sr_title r ++ nl)
             ++ (lit "   URL: " ++ (c :: url) ++ nl)
             ++ (lit "   " ++ sr_authors_info r ++ nl)
             ++ (lit "   " ++ sr_snippet r ++ para_break)
             ++ format_academic (i + 1) hits)
      with ((str_of_Z i ++ lit ". ")
            ++ sr_title r ++ nl
            ++ lit "   "
            ++ lit "URL: " ++ (c :: url) ++ nl
            ++ lit "   " ++ sr_authors_info r ++ nl ++ lit "   " ++ sr_snippet r
            ++ nl ++ nl ++ format_academic (i + 1) hits)
      by (unfold para_break; rewrite <- !app_assoc; reflexivity).
    rewrite findall_pass_no_U
      by (rewrite forallb_app, str_of_Z_no_U; reflexivity).
    rewrite (findall_pass_clean _ _ Ht).
    rewrite (findall_pass_no_U (lit "   ")) by reflexivity.
    rewrite (findall_url_line _ _ Hu). f_equal.
    rewrite Htail. apply IH.
Qed.

(** X17: the URLs the orchestrator reads back from the text of an academic
    search are the URLs of the papers that have one, in order; a paper
    without a URL has no URL line and gives none.  This holds when the
    query, the titles, the publication lines and the snippets do not
    contain ["URL: http"] and every URL present is an [http://] or
    [https://] URL without white space. *)
Theorem academic_urls_round_trip (query : str) (hits : list SearchResult) :
  no_marker query ->
  Forall plain_paper_hit hits ->
  Re.findall_urls
    (lit "Academic search results for: " ++ query ++ para_break
     ++ format_academic 1 hits)
  = present_urls hits.
Proof.
  intros Hq Hh. unfold Re.findall_urls.
  rewrite (findall_pass_no_U (lit "Academic search results for: ")) by reflexivity.
  unfold para_break. rewrite <- !app_assoc.
  rewrite (findall_pass_clean _ _ Hq).
  rewrite (findall_pass_no_U nl) by reflexivity.
  apply findall_format_academic. exact Hh.
Qed.

Lemma academic_urls_round_trip_witness :
  Re.findall_urls
    (lit "Academic search results for: " ++ lit "quantum computing" ++ para_break
     ++ format_academic 1 Sample2.two_paper_hits)
  = [lit "https://s2.org/p/1"].
Proof.
  apply (academic_urls_round_trip (lit "quantum computing") Sample2.two_paper_hits).
  - reflexivity.
  - constructor; [ | constructor; [ | constructor]].
    + unfold plain_paper_hit. repeat split; try reflexivity.
      right. exists (lit "https://"), (lit "s2.org/p/1"). repeat split; auto. discriminate.
    + unfold plain_paper_hit. repeat split; try reflexivity. left. reflexivity.
Defined.

(** Without the condition on the titles the round trip fails: a title that
    imitates a URL line adds a URL the hit does not have. *)
Example title_can_inject_a_url :
  Re.findall_urls
    (format_web 1 [ {| sr_title := lit "See URL: http://evil.example/x";
                       sr_url := lit "https://a.org/1";
                       sr_authors_info := [];
                       sr_snippet := lit "one" |} ])
  = [lit "http://evil.example/x"; lit "https://a.org/1"].
Proof. reflexivity. Qed.

(** ** The academic adapter *)

(** One paper: a record within the caps, or a [TypeError] when a field
    that is sliced or iterated is [null]. *)
Lemma paper_result_cases (paper : Paper) :
  (no_null paper = true ->
   exists r, paper_result paper = Ok r /\ within_caps r)
  /\ (no_null paper = false ->
      exists e, paper_result paper = Raise e
                /\ (e = not_subscriptable \/ e = not_iterable)).
Proof.
  destruct paper as [title authors year venue url abstract].
  unfold no_null, paper_result, get, slice_opt.
  cbn [paper_title paper_authors paper_year paper_venue paper_url paper_abstract].
  assert (Hcaps : forall t u a i : str,
             within_caps {| sr_title := slice_to t 100; sr_url := slice_to u 150;
                            sr_authors_info := slice_to i 150;
                            sr_snippet := slice_to a 200 |}).
  { intros. unfold within_caps. cbn [sr_title sr_url sr_authors_info sr_snippet].
    repeat split; apply len_slice_to_le; lia. }
  split; intros H.
  - destruct title, authors, url, abstract; try discriminate H;
      eexists; (split; [reflexivity | apply Hcaps]).
  - destruct title, authors, url, abstract; try discriminate H;
      eexists; (split; [reflexivity | auto]).
Qed.

Lemma academic_hits_ok (results : list Paper) (search_results : list SearchResult) :
  forallb no_null results = true ->
  exists hits,
    academic_hits results search_results = Ok (search_results ++ hits)
    /\ List.length hits = List.length results
    /\ Forall within_caps hits.
Proof.
  revert search_results. induction results as [|paper rest IH]; intros acc H.
  - exists []. rewrite app_nil_r. repeat split. constructor.
  - cbn [forallb] in H. apply andb_prop in H. destruct H as [Hp H].
    destruct (proj1 (paper_result_cases paper) Hp) as (r & Hr & Hc).
    cbn [academic_hits]. rewrite Hr.
    destruct (IH (acc ++ [r]) H) as (hits & -> & Hl & Hf).
    exists (r :: hits). rewrite <- app_assoc. repeat split.
    + cbn. rewrite Hl. reflexivity.
    + constructor; assumption.
Qed.

Lemma academic_hits_raise (results : list Paper) (search_results : list SearchResult) :
  forallb no_null results = false ->
  exists e,
    academic_hits results search_results = Raise e
    /\ (e = not_subscriptable \/ e = not_iterable).
Proof.
  revert search_results. induction results as [|paper rest IH]; intros acc H;
    [discriminate H | ].
  cbn [forallb] in H. cbn [academic_hits].
  destruct (no_null paper) eqn:Hp.
  - destruct (proj1 (paper_result_cases paper) Hp) as (r & -> & _).
    apply IH. exact H.
  - destruct (proj2 (paper_result_cases paper) Hp) as (e & -> & He).
    exists e. split; [reflexivity | exact He].
Qed.

Section AcademicFacts.

Context {W : Type}.
Variable http_get : str -> list (str * str) -> M W Response.
Variable quote_plus : str -> str.
Variable response_json_data : Response -> outcome (field (list Paper)).

(** X18: on a 200 response with papers, [_academic_search] renders one
    entry per paper, each within the length caps, when no paper has [null]
    for its title, author list, URL or abstract; a single paper with such
    a [null] makes the whole search raise a [TypeError], since the
    defaults of [paper.get] apply to missing keys only. *)
Theorem academic_search_null_field (query : str) (num_results : Z) (w w' : W)
    (response : Response) (results : list Paper) :
  http_get (academic_request_url quote_plus query num_results) json_headers w
  = (Ok response, w') ->
  status_code response = 200 ->
  response_json_data response = Ok (Val results) ->
  results <> [] ->
  (forallb no_null results = true ->
   exists hits,
     _academic_search http_get quote_plus response_json_data query num_results w
     = (Ok (lit "Academic search results for: " ++ query ++ para_break
            ++ format_academic 1 hits), w')
     /\ List.length hits = List.length results
     /\ Forall within_caps hits)
  /\ (forallb no_null results = false ->
      exists e,
        _academic_search http_get quote_plus response_json_data query num_results w
        = (Raise e, w')
        /\ (e = not_subscriptable \/ e = not_iterable)).
Proof.
  intros Hget Hs Hdata Hne.
  assert (Hrun : _academic_search http_get quote_plus response_json_data query num_results w
                 = match academic_hits results [] with
                   | Ok search_results =>
                       (Ok (lit "Academic search results for: " ++ query ++ para_break
                            ++ format_academic 1 search_results), w')
                   | Raise e => (Raise e, w')
                   end).
  { unfold _academic_search, try_except, bind, lift, ret, raise.
    unfold academic_request_url, json_headers in Hget. rewrite Hget, Hs.
    change (negb (200 =? 200)) with false. cbv iota. rewrite Hdata. cbn [get].
    destruct results as [|p ps]; [contradiction | ].
    destruct (academic_hits (p :: ps) []); reflexivity. }
  rewrite Hrun. split; intros H.
  - destruct (academic_hits_ok results [] H) as (hits & -> & Hl & Hf).
    exists hits. auto.
  - destruct (academic_hits_raise results [] H) as (e & -> & He).
    exists e. auto.
Qed.

(** X19: on a 200 response whose body has no [data] key, a [null] one or
    an empty list, [_academic_search] returns the sentence
    ["No academic results found. Try refining your search."], which holds
    no URL. *)
Theorem academic_search_no_data (query : str) (num_results : Z) (w w' : W)
    (response : Response) (data : field (list Paper)) :
  http_get (academic_request_url quote_plus query num_results) json_headers w
  = (Ok response, w') ->
  status_code response = 200 ->
  response_json_data response = Ok data ->
  data = Absent \/ data = Null \/ data = Val [] ->
  _academic_search http_get quote_plus response_json_data query num_results w
  = (Ok (lit "No academic results found. Try refining your search."), w')
  /\ Re.findall_urls (lit "No academic results found. Try refining your search.") = [].
Proof.
  intros Hget Hs Hdata Hd. split; [ | reflexivity].
  unfold _academic_search, try_except, bind, lift, ret.
  unfold academic_request_url, json_headers in Hget. rewrite Hget, Hs.
  change (negb (200 =? 200)) with false. cbv iota. rewrite Hdata.
  destruct Hd as [-> | [-> | ->]]; reflexivity.
Qed.

End AcademicFacts.

Lemma academic_search_null_field_witness :
  exists e,
    _academic_search (Sample.constant_get 200 (lit "application/json") (lit "{}"))
      Sample.plain_quote (Sample2.json_with [Sample2.paper_without_abstract])
      (lit "q") 2 0%nat
    = (Raise e, 1%nat)
    /\ (e = not_subscriptable \/ e = not_iterable).
Proof.
  apply (proj2 (academic_search_null_field
                  (Sample.constant_get 200 (lit "application/json") (lit "{}"))
                  Sample.plain_quote (Sample2.json_with [Sample2.paper_without_abstract])
                  (lit "q") 2 0%nat 1%nat
                  {| status_code := 200;
                     headers := [(lit "Content-Type", lit "application/json")];
                     text := lit "{}" |}
                  [Sample2.paper_without_abstract]
                  eq_refl eq_refl eq_refl ltac:(discriminate))).
  reflexivity.
Defined.

Lemma academic_search_no_data_witness :
  _academic_search (Sample.constant_get 200 (lit "application/json") (lit "{}"))
    Sample.plain_quote Sample.no_data (lit "q") 2 0%nat
  = (Ok (lit "No academic results found. Try refining your search."), 1%nat).
Proof.
  apply (proj1 (academic_search_no_data
                  (Sample.constant_get 200 (lit "application/json") (lit "{}"))
                  Sample.plain_quote Sample.no_data (lit "q") 2 0%nat 1%nat
                  {| status_code := 200;
                     headers := [(lit "Content-Type", lit "application/json")];
                     text := lit "{}" |}
                  Absent eq_refl eq_refl eq_refl (or_introl eq_refl))).
Defined.

Example academic_search_sample :
  _academic_search (Sample.constant_get 200 (lit "application/json") (lit "{}"))
    Sample.plain_quote (Sample2.json_with [Sample2.complete_paper])
    (lit "q") 2 0%nat
  = (Ok (lit "Academic search results for: q" ++ para_break
         ++ lit "1. A paper" ++ nl
         ++ lit "   Ada (2020)" ++ nl
         ++ lit "   No abstract available" ++ para_break), 1%nat).
Proof. reflexivity. Qed.

(** ** The link extractor: sizes and titles *)

Lemma fragments_bounds (limit min_len cap : Z) (elements : list str) :
  0 <= limit -> 0 <= cap ->
  len (fragments limit min_len cap elements) <= limit
  /\ Forall (fun f => len f <= cap) (fragments limit min_len cap elements).
Proof.
  intros Hl Hc. unfold fragments. split.
  - rewrite len_map.
    pose proof (filter_length_le (fun t : str => len t >? min_len)
                  (map strip (slice_to elements limit))) as H.
    rewrite length_map in H.
    pose proof (len_slice_to_le elements limit Hl) as H2.
    eapply Z.le_trans; [ | exact H2]. unfold len. apply Nat2Z.inj_le. exact H.
  - apply Forall_forall. intros f Hin. apply in_map_iff in Hin.
    destruct Hin as (t & <- & _). apply len_slice_to_le. exact Hc.
Qed.

(** The excerpt of a parsed page has between one and nine fragments, and
    no fragment has more than 500 characters. *)
Lemma content_of_fragments (soup : Soup) :
  1 <= len (content_of soup) <= 9
  /\ Forall (fun f => len f <= 500) (content_of soup).
Proof.
  pose proof (content_of_unfold soup) as Hc. cbv zeta in Hc.
  set (tier1 := fragments 5 15 300 (find_all soup [lit "p"])) in *.
  set (tier2 := fragments 8 10 200
                  (find_all soup [lit "h1"; lit "h2"; lit "h3"; lit "p"])) in *.
  destruct (fragments_bounds 5 15 300 (find_all soup [lit "p"])) as [L1 F1]; try lia.
  destruct (fragments_bounds 8 10 200
              (find_all soup [lit "h1"; lit "h2"; lit "h3"; lit "p"])) as [L2 F2]; try lia.
  fold tier1 in L1, F1. fold tier2 in L2, F2.
  assert (F1' : Forall (fun f : str => len f <= 500) tier1)
    by (eapply Forall_impl; [ | exact F1]; cbv beta; intros; lia).
  assert (F2' : Forall (fun f : str => len f <= 500) tier2)
    by (eapply Forall_impl; [ | exact F2]; cbv beta; intros; lia).
  rewrite Hc.
  destruct (len tier1 <? 2) eqn:E; [apply Z.ltb_lt in E | apply Z.ltb_ge in E].
  - destruct (tier1 ++ tier2) as [|f fs] eqn:Ea.
    + unfold whole_text. split; [cbn; lia | ].
      constructor; [apply len_slice_to_le; lia | constructor].
    + rewrite <- Ea. rewrite len_app. split.
      * pose proof (len_nonneg tier1). pose proof (len_nonneg tier2).
        assert (0 < len (tier1 ++ tier2)) by (rewrite Ea, len_cons; pose proof (len_nonneg fs); lia).
        rewrite len_app in *. lia.
      * apply Forall_app. split; assumption.
  - destruct tier1 as [|f fs] eqn:Et; [rewrite len_nil in E; lia | ].
    split; [lia | exact F1'].
Qed.

Lemma len_join_le (sep : str) (cap : Z) (parts : list str) :
  Forall (fun f => len f <= cap) parts ->
  len (join sep parts) <= len parts * (cap + len sep).
Proof.
  intros H. pose proof (len_nonneg sep) as Hs.
  induction H as [|p rest Hp Hrest IH];
    [unfold len; cbn [join List.length Z.of_nat]; lia | ].
  cbv beta in Hp.
  pose proof (len_nonneg p) as H0. pose proof (len_nonneg rest) as Hr.
  destruct rest as [|q rest'].
  - cbn [join]. rewrite len_cons, len_nil. nia.
  - change (join sep (p :: q :: rest')) with (p ++ sep ++ join sep (q :: rest')).
    rewrite !len_app, (len_cons p). unfold str in *. nia.
Qed.

Section FollowFacts.

Context {W : Type}.
Variable http_get : str -> list (str * str) -> M W Response.
Variable BeautifulSoup : str -> outcome Soup.

Lemma follow_link_page (url : str) (w w' : W) (response : Response) (soup : Soup) :
  http_get url html_headers w = (Ok response, w') ->
  contains (lit "application/pdf")
    (lower (headers_get (headers response) (lit "content-type") [])) = false ->
  BeautifulSoup (slice_to (text response) 100000) = Ok soup ->
  _follow_link http_get BeautifulSoup url w
  = (Ok (page_block url (slice_to (page_title soup) 100)
           (slice_to (page_description soup) 200)
           (join para_break (content_of soup))), w').
Proof.
  intros Hget Hpdf Hsoup. unfold _follow_link, try_except, bind, lift, ret.
  unfold html_headers in Hget. rewrite Hget, Hpdf, Hsoup. reflexivity.
Qed.

(** X20: the block [_follow_link] returns for a page that is not a PDF
    has an excerpt of one to nine fragments of at most 500 characters
    each, and is at most 4856 characters longer than the URL, whatever the
    size of the page. *)
Theorem follow_link_block_bounded (url : str) (w w' : W) (response : Response)
    (soup : Soup) :
  http_get url html_headers w = (Ok response, w') ->
  contains (lit "application/pdf")
    (lower (headers_get (headers response) (lit "content-type") [])) = false ->
  BeautifulSoup (slice_to (text response) 100000) = Ok soup ->
  exists block : str,
    _follow_link http_get BeautifulSoup url w = (Ok block, w')
    /\ 1 <= len (content_of soup) <= 9
    /\ Forall (fun f => len f <= 500) (content_of soup)
    /\ len block <= len url + 4856.
Proof.
  intros Hget Hpdf Hsoup. eexists.
  split; [exact (follow_link_page url w w' response soup Hget Hpdf Hsoup) | ].
  destruct (content_of_fragments soup) as [Hk Hf]. split; [exact Hk | split; [exact Hf | ]].
  pose proof (len_join_le para_break 500 (content_of soup) Hf) as Hj.
  rewrite len_para_break in Hj.
  unfold page_block. rewrite !len_app.
  pose proof (len_slice_to_le (page_title soup) 100 ltac:(lia)).
  pose proof (len_slice_to_le (page_description soup) 200 ltac:(lia)).
  rewrite len_para_break.
  change (len (lit "Title: ")) with 7. change (len (lit "URL: ")) with 5.
  change (len (lit "Description: ")) with 13. change (len (lit "Content:")) with 8.
  change (len nl) with 1. nia.
Qed.

End FollowFacts.

Lemma follow_link_block_bounded_witness :
  exists block : str,
    _follow_link
      (Sample.constant_get 404 (lit "text/html; charset=utf-8") (lit "Not Found"))
      Sample.text_only_parser (lit "https://example.org/missing") 0%nat
    = (Ok block, 1%nat)
    /\ len block <= len (lit "https://example.org/missing") + 4856.
Proof.
  destruct (follow_link_block_bounded
              (Sample.constant_get 404 (lit "text/html; charset=utf-8") (lit "Not Found"))
              Sample.text_only_parser (lit "https://example.org/missing") 0%nat 1%nat
              {| status_code := 404;
                 headers := [(lit "Content-Type", lit "text/html; charset=utf-8")];
                 text := lit "Not Found" |}
              {| select_result := [];
                 soup_title := None;
                 soup_meta_description := None;
                 soup_elements := [];
                 soup_text := lit "Not Found" |}
              eq_refl eq_refl eq_refl) as (block & Hrun & _ & _ & Hlen).
  exists block. split; assumption.
Defined.

(** ** The title of a source block *)

(** The title pattern finds the title line a block starts with. *)
Lemma search_title_block (title rest : str) :
  title <> [] -> no_newline title = true ->
  Re.search_title (lit "Title: " ++ title ++ nl ++ rest) = Some title.
Proof.
  intros Hne Hnl. destruct title as [|c title]; [contradiction | ].
  unfold no_newline in Hnl. cbn [forallb] in Hnl.
  apply andb_prop in Hnl. destruct Hnl as [Hc Hnl].
  assert (Hm : Re.match_title (lit "Title: " ++ (c :: title) ++ nl ++ rest)
               = Some (c :: title)).
  { unfold Re.match_title.
    change (starts_with (lit "Title: ") (lit "Title: " ++ (c :: title) ++ nl ++ rest))
      with true. cbv iota.
    change (skipn 7 (lit "Title: " ++ (c :: title) ++ nl ++ rest))
      with (c :: title ++ nl ++ rest).
    cbv beta iota. apply negb_true_iff in Hc. rewrite Hc.
    change (title ++ nl ++ rest) with (title ++ "010"%char :: rest).
    rewrite (span_app_stop (fun x => negb (Re.is_nl x)) title rest "010"%char Hnl eq_refl).
    reflexivity. }
  change (lit "Title: " ++ (c :: title) ++ nl ++ rest)
    with ("T"%char :: (lit "itle: " ++ (c :: title) ++ nl ++ rest)) in *.
  cbn [Re.search_title]. rewrite Hm. reflexivity.
Qed.

Section TitleFacts.

Context {W : Type}.
Variable http_get : str -> list (str * str) -> M W Response.
Variable BeautifulSoup : str -> outcome Soup.

(** X21: the title the orchestrator puts in a [SOURCE] heading is the one
    [_follow_link] printed.  For a PDF response, recognised by its content
    type in any letter case and without reading the body or calling the
    parser, it is ["PDF Document"]; for a parsed page it is the first 100
    characters of the page title, when these are not empty and hold no
    line break. *)
Theorem source_title_of_block (url : str) (w w' : W) (response : Response) :
  http_get url html_headers w = (Ok response, w') ->
  (contains (lit "application/pdf")
     (lower (headers_get (headers response) (lit "content-type") [])) = true ->
   _follow_link http_get BeautifulSoup url w = (Ok (pdf_block url), w')
   /\ Re.search_title (pdf_block url) = Some (lit "PDF Document"))
  /\ (forall soup : Soup,
         contains (lit "application/pdf")
           (lower (headers_get (headers response) (lit "content-type") [])) = false ->
         BeautifulSoup (slice_to (text response) 100000) = Ok soup ->
         slice_to (page_title soup) 100 <> [] ->
         no_newline (slice_to (page_title soup) 100) = true ->
         exists block,
           _follow_link http_get BeautifulSoup url w = (Ok block, w')
           /\ Re.search_title block = Some (slice_to (page_title soup) 100)).
Proof.
  intros Hget. split.
  - intros Hpdf. split.
    + unfold _follow_link, try_except, bind, lift, ret.
      unfold html_headers in Hget. rewrite Hget, Hpdf. reflexivity.
    + unfold pdf_block.
      apply (search_title_block (lit "PDF Document")); [discriminate | reflexivity].
  - intros soup Hpdf Hsoup Hne Hnl. eexists. split.
    + exact (follow_link_page http_get BeautifulSoup url w w' response soup
               Hget Hpdf Hsoup).
    + unfold page_block. apply search_title_block; assumption.
Qed.

End TitleFacts.

Lemma source_title_of_block_witness :
  _follow_link
    (Sample.constant_get 200 (lit "Application/PDF") (lit "%PDF-1.4"))
    Sample.text_only_parser (lit "https://example.org/paper.pdf") 0%nat
  = (Ok (pdf_block (lit "https://example.org/paper.pdf")), 1%nat)
  /\ Re.search_title (pdf_block (lit "https://example.org/paper.pdf"))
     = Some (lit "PDF Document").
Proof.
  apply (proj1 (source_title_of_block
                  (Sample.constant_get 200 (lit "Application/PDF") (lit "%PDF-1.4"))
                  Sample.text_only_parser (lit "https://example.org/paper.pdf")
                  0%nat 1%nat
                  {| status_code := 200;
                     headers := [(lit "Content-Type", lit "Application/PDF")];
                     text := lit "%PDF-1.4" |}
                  eq_refl)).
  reflexivity.
Defined.

(** ** When a source gives nothing *)

Lemma slice_to_map {A B} (f : A -> B) (l : list A) (k : Z) :
  slice_to (map f l) k = map f (slice_to l k).
Proof. unfold slice_to. rewrite len_map. apply firstn_map. Qed.

(** X22: with [sources == "both"], when one of the two URL lists is empty
    the combined list is the one a single-source request would build from
    the other list; and for a count that is not negative the second cap
    changes nothing on a list that was already capped. *)
Theorem combine_urls_one_sided (web_urls academic_urls : list str) (num_results : Z) :
  combine_urls (lit "both") web_urls [] num_results
  = combine_urls (lit "web") web_urls [] num_results
  /\ combine_urls (lit "both") [] academic_urls num_results
     = combine_urls (lit "academic") [] academic_urls num_results
  /\ (0 <= num_results ->
      combine_urls (lit "web") (slice_to web_urls num_results) academic_urls num_results
      = map (fun url => (lit "web", url)) (slice_to web_urls num_results)).
Proof.
  split; [ | split].
  - rewrite combine_urls_both, interleave_nil_r, slice_to_map. reflexivity.
  - rewrite combine_urls_both. cbn [interleave]. rewrite slice_to_map. reflexivity.
  - intros Hn. unfold combine_urls.
    change (str_eqb (lit "web") (lit "both")) with false.
    change (str_eqb (lit "web") (lit "web")) with true. cbv iota.
    rewrite slice_to_slice_to by lia. reflexivity.
Qed.

Lemma combine_urls_one_sided_witness :
  combine_urls (lit "web") (slice_to [lit "w1"; lit "w2"; lit "w3"] 2) [] 2
  = [(lit "web", lit "w1"); (lit "web", lit "w2")].
Proof.
  apply (proj2 (proj2 (combine_urls_one_sided [lit "w1"; lit "w2"; lit "w3"] [] 2))).
  lia.
Defined.

(** ** The early return is not budgeted *)

Lemma len_intro (query sources : str) : len query < len (intro query sources).
Proof.
  unfold intro. pose proof (len_nonneg sources) as Hs.
  destruct (str_eqb sources (lit "both")); rewrite !len_app;
    change (len (lit "Research Query: ")) with 16; change (len para_break) with 2;
    change (len (lit "Searching ")) with 10; change (len (lit "...")) with 3;
    change (len (lit "web and academic sources")) with 24;
    change (len (lit " sources")) with 8; lia.
Qed.

Section EarlyReturnFacts.

Context {W : Type}.
Variable web_search : str -> Z -> M W str.
Variable academic_search : str -> Z -> M W str.
Variable follow_link : str -> M W str.

(** X23: the report of the early return is never cut: it holds the whole
    introduction, query included, and so is longer than the query; with a
    query of 8000 characters or more it exceeds the maximum content
    size. *)
Theorem early_return_not_budgeted (query sources : str) (num_results : Z)
    (s s1 : W * list call) (result : str) :
  collect web_search academic_search query
    (normalize_sources sources) (clamp_results num_results) s
  = (Ok (result, [], []), s1) ->
  exists more : str,
    research web_search academic_search follow_link query sources num_results s
    = (Ok (intro query (normalize_sources sources) ++ more ++ NO_RESULTS), s1)
    /\ len query
       < len (intro query (normalize_sources sources) ++ more ++ NO_RESULTS)
    /\ (MAX_CONTENT_SIZE <= len query ->
        MAX_CONTENT_SIZE
        < len (intro query (normalize_sources sources) ++ more ++ NO_RESULTS)).
Proof.
  intros Hc.
  destruct (collect_total web_search academic_search query
              (normalize_sources sources) (clamp_results num_results) s)
    as (m & wu & au & s1' & Hc' & _).
  assert (Hr : result = intro query (normalize_sources sources) ++ m)
    by (rewrite Hc in Hc'; congruence).
  clear Hc'. subst result. exists m.
  assert (Hlen : len query
                 < len (intro query (normalize_sources sources) ++ m ++ NO_RESULTS)).
  { rewrite !len_app. pose proof (len_intro query (normalize_sources sources)).
    pose proof (len_nonneg m). pose proof (len_nonneg NO_RESULTS). lia. }
  split; [ | split; [exact Hlen | intros; lia]].
  unfold research. apply top_level_ok.
  rewrite (research_body_run _ _ _ _ _ _ _ _ _ _ _ Hc).
  rewrite <- app_assoc. reflexivity.
Qed.

End EarlyReturnFacts.

Lemma early_return_not_budgeted_witness :
  exists more : str,
    research Sample.empty_search Sample.empty_search Sample.page
      (lit "q") (lit "web") 2 (0%nat, [])
    = (Ok (intro (lit "q") (lit "web") ++ more ++ NO_RESULTS),
       (1%nat, [CallWebSearch (lit "q") 2]))
    /\ len (lit "q") < len (intro (lit "q") (lit "web") ++ more ++ NO_RESULTS).
Proof.
  destruct (early_return_not_budgeted Sample.empty_search Sample.empty_search Sample.page
              (lit "q") (lit "web") 2 (0%nat, []) (1%nat, [CallWebSearch (lit "q") 2])
              (intro (lit "q") (lit "web")
               ++ lit "WEB SEARCH RESULTS:" ++ nl ++ lit "No web results found for: q"
               ++ para_break)
              eq_refl) as (more & Hrun & Hlen & _).
  exists more. split; assumption.
Defined.

(** ** One block per source *)

Lemma starts_with_cancel (a b c : str) :
  starts_with (a ++ b) (a ++ c) = starts_with b c.
Proof.
  induction a as [|x a IH]; [reflexivity | ].
  cbn [app starts_with]. rewrite ascii_eqb_refl. exact IH.
Qed.

Section BlockFacts.

Context {W : Type}.
Variable follow_link : str -> M W str.

Lemma follow_all_headings (combined_urls : list (str * str)) (i : Z) (result : str)
    (s : W * list call) :
  exists more s',
    follow_all follow_link i combined_urls result s = (Ok (result ++ more), s')
    /\ forall (k : nat) (source_type url : str),
         nth_error combined_urls k = Some (source_type, url) ->
         contains (source_heading (i + Z.of_nat k) source_type) more = true.
Proof.
  revert i result s.
  induction combined_urls as [|[source_type url] rest IH]; intros i result s.
  - exists [], s. cbn [follow_all]. unfold ret. rewrite app_nil_r.
    split; [reflexivity | ]. intros [|k] ? ? H; discriminate H.
  - cbn [follow_all]. unfold bind at 1. unfold try_except, bind, await, ret.
    destruct (follow_link url (fst s)) as [[page | e] w'].
    + match goal with |- context [follow_all _ _ _ ?r ?st] =>
        destruct (IH (i + 1) r st) as (m & s' & -> & Hk) end.
      eexists _, s'. split; [rewrite <- !app_assoc; reflexivity | ].
      intros [|k] st u H.
      * injection H as <- <-. rewrite Z.add_0_r. unfold source_heading.
        apply contains_here. rewrite <- ?app_assoc.
        rewrite !starts_with_cancel. reflexivity.
      * cbn [nth_error] in H. specialize (Hk k st u H).
        replace (i + Z.of_nat (S k)) with (i + 1 + Z.of_nat k) by lia.
        repeat apply contains_app_r. exact Hk.
    + match goal with |- context [follow_all _ _ _ ?r ?st] =>
        destruct (IH (i + 1) r st) as (m & s' & -> & Hk) end.
      eexists _, s'. split; [rewrite <- !app_assoc; reflexivity | ].
      intros [|k] st u H.
      * injection H as <- <-. rewrite Z.add_0_r. unfold source_heading.
        apply contains_here. rewrite <- ?app_assoc.
        rewrite !starts_with_cancel. reflexivity.
      * cbn [nth_error] in H. specialize (Hk k st u H).
        replace (i + Z.of_nat (S k)) with (i + 1 + Z.of_nat k) by lia.
        repeat apply contains_app_r. exact Hk.
Qed.

(** X24: the extraction loop writes one block per combined URL, numbered
    from 1 in list order and labelled with the source kind, whether the
    page was read or the extractor raised: the body it builds keeps the
    report so far and contains the heading ["SOURCE i (kind): "] of every
    URL. *)
Theorem every_source_has_a_block (combined_urls : list (str * str)) (result : str)
    (s : W * list call) :
  exists body s',
    follow_all follow_link 1 combined_urls result s = (Ok body, s')
    /\ starts_with result body = true
    /\ forall (k : nat) (source_type url : str),
         nth_error combined_urls k = Some (source_type, url) ->
         contains (source_heading (1 + Z.of_nat k) source_type) body = true.
Proof.
  destruct (follow_all_headings combined_urls 1 result s) as (more & s' & Hrun & Hk).
  exists (result ++ more), s'. split; [exact Hrun | split].
  - apply starts_with_app.
  - intros k st u H. apply contains_app_r. exact (Hk k st u H).
Qed.

End BlockFacts.

Lemma every_source_has_a_block_witness :
  exists body s',
    follow_all Sample.page 1
      [(lit "web", lit "https://a.org/1"); (lit "academic", lit "https://s2.org/p/1")]
      (lit "intro") (0%nat, [])
    = (Ok body, s')
    /\ contains (source_heading 2 (lit "academic")) body = true.
Proof.
  destruct (every_source_has_a_block Sample.page
              [(lit "web", lit "https://a.org/1"); (lit "academic", lit "https://s2.org/p/1")]
              (lit "intro") (0%nat, [])) as (body & s' & Hrun & _ & Hk).
  exists body, s'. split; [exact Hrun | ].
  exact (Hk 1%nat (lit "academic") (lit "https://s2.org/p/1") eq_refl).
Defined.
